(** * BloomFilter.py: a Bloom filter over a bit vector and a re-seeded hash

    The development follows the Python class [BloomFilter]: the sizing
    function [__bitsNeeded], the constructor, [insert], [find],
    [falsePositiveRate] and [numBitsSet].

    - Python integers are [Z]; [%] is [Z.modulo] (the sign of the divisor),
      and a zero divisor raises [ZeroDivisionError].
    - Python floats are IEEE 754 binary64 values, here the Standard Library's
      [spec_float] at precision 53 and maximal exponent 1024, with its
      correctly rounded operations.
    - A raised exception is the [Raise] outcome of a computation; a method of
      the object is a function from the object's state to an outcome and the
      state the call leaves behind. *)

From Stdlib Require Import ZArith Bool Lia SpecFloat.
From stdpp Require Import base list.

Local Open Scope Z_scope.

(** ** Exceptions and outcomes *)

Inductive exn : Set :=
| ZeroDivisionError
| OverflowError
| ValueError
| TypeError
| IndexError.

Inductive result (A : Type) : Type :=
| Ok (a : A)
| Raise (e : exn).
Arguments Ok {A} a.
Arguments Raise {A} e.

Definition bind {A B : Type} (c : result A) (k : A -> result B) : result B :=
  match c with
  | Ok a => k a
  | Raise e => Raise e
  end.

Notation "'let*' x := c 'in' k" := (bind c (fun x => k))
  (at level 10, x name, c at level 100, k at level 200).

(** ** Python's numbers, as far as the filter uses them *)

Module Py.

Definition prec : Z := 53.
Definition emax : Z := 1024.

Abbreviation float := spec_float.

Definition zero : float := S754_zero false.
Definition one : float := S754_finite false 4503599627370496 (-52).
Definition half : float := S754_finite false 4503599627370496 (-53).
Definition minus_one : float := S754_finite true 4503599627370496 (-52).

(** What an arithmetic expression evaluates to: a float, or a complex
    number (a negative float raised to a fractional power).  The value of a
    complex number is not followed: the only expression that can have one
    ends in [int], which rejects it with [TypeError] unless the complex
    arithmetic on the way raised before. *)
Inductive number : Set :=
| Float (x : float)
| Complex.

Definition is_nan (x : float) : bool :=
  match x with S754_nan => true | _ => false end.

Definition is_inf (x : float) : bool :=
  match x with S754_infinity _ => true | _ => false end.

Definition sign (x : float) : bool :=
  match x with
  | S754_zero s | S754_infinity s | S754_finite s _ _ => s
  | S754_nan => false
  end.

(** [x == floor(x)] on a finite float. *)
Definition is_integer (x : float) : bool :=
  match x with
  | S754_zero _ => true
  | S754_finite _ m e =>
      if 0 <=? e then true else Z.pos m mod 2 ^ (- e) =? 0
  | _ => false
  end.

(** [fmod(fabs(x), 2.0) == 1.0]. *)
Definition is_odd_integer (x : float) : bool :=
  match x with
  | S754_finite _ m e =>
      if 0 <? e then false
      else (Z.pos m mod 2 ^ (- e) =? 0) && Z.odd (Z.pos m / 2 ^ (- e))
  | _ => false
  end.

(** An integer as an unrounded binary fraction. *)
Definition exact (z : Z) : float :=
  match z with
  | Z0 => S754_zero false
  | Zpos p => S754_finite false p 0
  | Zneg p => S754_finite true p 0
  end.

(** [float(z)]: the nearest float, ties to even; too large an integer
    raises [OverflowError]. *)
Definition float_of_int (z : Z) : result float :=
  match binary_normalize prec emax z 0 false with
  | S754_infinity _ => Raise OverflowError
  | x => Ok x
  end.

(** [a / b] on two integers: the correctly rounded quotient. *)
Definition int_truediv (a b : Z) : result float :=
  if b =? 0 then Raise ZeroDivisionError
  else
    match SFdiv prec emax (exact a) (exact b) with
    | S754_infinity _ => Raise OverflowError
    | q => Ok q
    end.

(** [x / y] on two floats. *)
Definition float_truediv (x y : float) : result float :=
  if SFeqb y zero then Raise ZeroDivisionError
  else Ok (SFdiv prec emax x y).

(** [float(N).__int__()]: truncation toward zero. *)
Definition float_int (x : float) : result Z :=
  match x with
  | S754_nan => Raise ValueError
  | S754_infinity _ => Raise OverflowError
  | S754_zero _ => Ok 0
  | S754_finite s m e =>
      let q := if 0 <=? e then Z.pos m * 2 ^ e else Z.pos m / 2 ^ (- e) in
      Ok (if s then - q else q)
  end.

(** The largest integer not above a float. *)
Definition float_floor (x : float) : result Z :=
  match x with
  | S754_nan => Raise ValueError
  | S754_infinity _ => Raise OverflowError
  | S754_zero _ => Ok 0
  | S754_finite s m e =>
      let z := if s then Z.neg m else Z.pos m in
      Ok (if 0 <=? e then z * 2 ^ e else z / 2 ^ (- e))
  end.

Section Pow.

(** The C library's [pow] on a finite positive base other than [1.0] and a
    finite non-zero exponent, followed by the interpreter's [errno] test:
    a range error is [OverflowError].  Its values are not specified by
    the language, so it stays a parameter. *)
Variable libm_pow : float -> float -> result float.

(** [v ** w] on two floats.  The special cases are sorted out by the
    interpreter before the platform's [pow] is called. *)
Definition float_pow (iv iw : float) : result number :=
  if SFeqb iw zero then Ok (Float one)
  else if is_nan iv then Ok (Float iv)
  else if is_nan iw then Ok (Float (if SFeqb iv one then one else iw))
  else if is_inf iw then
    let av := SFabs iv in
    if SFeqb av one then Ok (Float one)
    else if Bool.eqb (SFltb zero iw) (SFltb one av) then Ok (Float (SFabs iw))
    else Ok (Float zero)
  else if is_inf iv then
    let odd := is_odd_integer iw in
    if SFltb zero iw then Ok (Float (if odd then iv else SFabs iv))
    else Ok (Float (if odd then S754_zero (sign iv) else zero))
  else if SFeqb iv zero then
    if SFltb iw zero then Raise ZeroDivisionError
    else Ok (Float (if is_odd_integer iw then iv else zero))
  else if SFltb iv zero && negb (is_integer iw) then Ok Complex
  else
    let negate_result := SFltb iv zero && is_odd_integer iw in
    let av := if SFltb iv zero then SFopp iv else iv in
    if SFeqb av one then Ok (Float (if negate_result then minus_one else one))
    else
      let* ix := libm_pow av iw in
      Ok (Float (if negate_result then SFopp ix else ix)).

(** [v ** w] where [v] is any number and [w] a float. *)
Definition pow (v : number) (w : float) : result number :=
  match v with
  | Float x => float_pow x w
  | Complex => Ok Complex
  end.

(** [v ** d] where [d] is an integer: [d] is converted first. *)
Definition pow_int (v : number) (d : Z) : result number :=
  let* w := float_of_int d in
  pow v w.

End Pow.

(** [a - v] where [a] is an integer. *)
Definition rsub (a : Z) (v : number) : result number :=
  let* x := float_of_int a in
  match v with
  | Float y => Ok (Float (SFsub prec emax x y))
  | Complex => Ok Complex
  end.

(** [a / v] where [a] is an integer. *)
Definition rtruediv (a : Z) (v : number) : result number :=
  let* x := float_of_int a in
  match v with
  | Float y => let* q := float_truediv x y in Ok (Float q)
  | Complex => Ok Complex
  end.

(** [int(v)]. *)
Definition int (v : number) : result Z :=
  match v with
  | Float x => float_int x
  | Complex => Raise TypeError
  end.

(** [math.floor(v)]. *)
Definition floor (v : number) : result Z :=
  match v with
  | Float x => float_floor x
  | Complex => Raise TypeError
  end.

(** [a % b] on two integers. *)
Definition mod_ (a b : Z) : result Z :=
  if b =? 0 then Raise ZeroDivisionError else Ok (a mod b).

End Py.

(** ** The bit vector *)

(** Modelled from the spec: the module [BitVectorcopy] is not among the
    sources.  A [BitVector(size = n)] is a fixed-length array of [n] bits, all
    zero at first; [v[i]] reads and [v[i] = b] writes the bit at [i] for
    [0 <= i < n], and any other index is an error.  A negative [n] is taken
    to give the empty vector. *)
Module BitVector.

Abbreviation t := (list bool).

(** Modelled from the spec: [BitVector(size = n)], [n] bits set to zero. *)
Definition new (size : Z) : t := replicate (Z.to_nat size) false.

(** Modelled from the spec: [v[i]], the bit at an index within the length. *)
Definition getitem (v : t) (i : Z) : result bool :=
  if 0 <=? i then
    match v !! Z.to_nat i with
    | Some b => Ok b
    | None => Raise IndexError
    end
  else Raise IndexError.

(** Modelled from the spec: [v[i] = b], at an index within the length. *)
Definition setitem (v : t) (i : Z) (b : bool) : result t :=
  if (0 <=? i) && (Z.to_nat i <? length v)%nat then Ok (<[Z.to_nat i := b]> v)
  else Raise IndexError.

(** The number of bits equal to one: the reference scan. *)
Definition count_ones (v : t) : Z := Z.of_nat (length (filter (eq true) v)).

End BitVector.

(** ** The filter *)

(** The attributes of a [BloomFilter] object. *)
Record BloomFilter : Type := mkBloomFilter {
  bloomFilter : BitVector.t;
  size : Z;
  bitsSet : Z;
  numHashes : Z
}.

(** A method body: it runs on the object and leaves it in some state, whether
    it returns or raises. *)
Definition method (A : Type) : Type := BloomFilter -> result A * BloomFilter.

Definition ret {A : Type} (a : A) : method A := fun self => (Ok a, self).

Definition mbind {A B : Type} (c : method A) (k : A -> method B) : method B :=
  fun self =>
    match c self with
    | (Ok a, self') => k a self'
    | (Raise e, self') => (Raise e, self')
    end.

Definition lift {A : Type} (c : result A) : method A := fun self => (c, self).

Definition attr {A : Type} (f : BloomFilter -> A) : method A :=
  fun self => (Ok (f self), self).

Definition set_bloomFilter (v : BitVector.t) : method unit :=
  fun self => (Ok tt, mkBloomFilter v (size self) (bitsSet self) (numHashes self)).

Definition set_bitsSet (c : Z) : method unit :=
  fun self => (Ok tt, mkBloomFilter (bloomFilter self) (size self) c (numHashes self)).

Notation "'let!' x := c 'in' k" := (mbind c (fun x => k))
  (at level 10, x name, c at level 100, k at level 200).

(** What the filter takes from outside: the keyed, re-seedable hash function
    and the platform's [pow]. *)
Class Collaborators : Type := {
  (** Keys are whatever the hash function accepts. *)
  Key : Type;
  (** Modelled from the spec: the module [BitHashcopy] is not among the
      sources.  [BitHash(key, seed)] is a deterministic function of the key
      and the seed and returns an integer. *)
  BitHash : Key -> Z -> Z;
  libm_pow : Py.float -> Py.float -> result Py.float
}.

Section Filter.

Context `{Collaborators}.

(** [__bitsNeeded]. *)
Definition bitsNeeded (numKeys numHashes : Z) (maxFalsePositive : Py.float) : result Z :=
  let n := numKeys in
  let d := numHashes in
  let P := maxFalsePositive in
  let* inv_d := Py.int_truediv 1 d in
  let* r := Py.pow libm_pow (Py.Float P) inv_d in
  let* phi := Py.rsub 1 r in
  let* inv_n := Py.int_truediv 1 n in
  let* y := Py.pow libm_pow phi inv_n in
  let* den := Py.rsub 1 y in
  let* N := Py.rtruediv d den in
  Py.int N.

(** The object [__init__] builds once the size is known. *)
Definition fresh (num numHashes : Z) : BloomFilter :=
  {| bloomFilter := BitVector.new num;
     size := num;
     bitsSet := 0;
     numHashes := numHashes |}.

(** [__init__]: an exception of [__bitsNeeded] leaves no object. *)
Definition init (numKeys numHashes : Z) (maxFalsePositive : Py.float) : result BloomFilter :=
  let* num := bitsNeeded numKeys numHashes maxFalsePositive in
  Ok (fresh num numHashes).

(** The bit at [h % self.__size]. *)
Definition probe (h : Z) : method bool :=
  let! v := attr bloomFilter in
  let! sz := attr size in
  let! i := lift (Py.mod_ h sz) in
  lift (BitVector.getitem v i).

(** [self.__bloomFilter[h % self.__size] = 1]. *)
Definition mark (h : Z) : method unit :=
  let! v := attr bloomFilter in
  let! sz := attr size in
  let! i := lift (Py.mod_ h sz) in
  let! v' := lift (BitVector.setitem v i true) in
  set_bloomFilter v'.

(** The loop of [insert]: [i] iterations from the hash value [h]. *)
Fixpoint insert_loop (key : Key) (i : nat) (h : Z) : method unit :=
  match i with
  | O => ret tt
  | S i' =>
      let! b := probe h in
      let! _ := (if b then ret tt
                 else let! c := attr bitsSet in set_bitsSet (c + 1)) in
      let! _ := mark h in
      insert_loop key i' (BitHash key h)
  end.

Definition insert (key : Key) : method unit :=
  let h := BitHash key 0 in
  let! d := attr numHashes in
  insert_loop key (Z.to_nat d) h.

(** The loop of [find]. *)
Fixpoint find_loop (key : Key) (i : nat) (h : Z) : method bool :=
  match i with
  | O => ret true
  | S i' =>
      let! b := probe h in
      if b then find_loop key i' (BitHash key h) else ret false
  end.

Definition find (key : Key) : method bool :=
  let h := BitHash key 0 in
  let! d := attr numHashes in
  find_loop key (Z.to_nat d) h.

Definition falsePositiveRate : method Py.number :=
  let! sz := attr size in
  let! c := attr bitsSet in
  let! sz' := attr size in
  let! phi := lift (Py.int_truediv (sz - c) sz') in
  let! d := attr numHashes in
  let! base := lift (Py.rsub 1 (Py.Float phi)) in
  lift (Py.pow_int libm_pow base d).

Definition numBitsSet : method Z := attr bitsSet.

(** *** Sequences of calls *)

Inductive op : Type :=
| Insert (key : Key)
| Find (key : Key)
| FalsePositiveRate
| NumBitsSet.

(** What a call returns. *)
Inductive value : Set :=
| VNone
| VBool (b : bool)
| VNumber (x : Py.number)
| VInt (z : Z).

Definition call (o : op) : method value :=
  match o with
  | Insert key => let! _ := insert key in ret VNone
  | Find key => let! b := find key in ret (VBool b)
  | FalsePositiveRate => let! x := falsePositiveRate in ret (VNumber x)
  | NumBitsSet => let! z := numBitsSet in ret (VInt z)
  end.

(** The object after a sequence of calls, each run to its return or to its
    exception. *)
Definition run (ops : list op) (self : BloomFilter) : BloomFilter :=
  fold_left (fun s o => snd (call o s)) ops self.

(** *** The probe positions of a key *)

(** The hash values of [i] iterations from [h]: each is the previous one fed
    back as the seed. *)
Fixpoint hashes (key : Key) (i : nat) (h : Z) : list Z :=
  match i with
  | O => []
  | S i' => h :: hashes key i' (BitHash key h)
  end.

(** The hash values [insert] and [find] derive for a key. *)
Definition hashes_of (self : BloomFilter) (key : Key) : list Z :=
  hashes key (Z.to_nat (numHashes self)) (BitHash key 0).

(** The index a hash value selects. *)
Definition index (self : BloomFilter) (h : Z) : nat := Z.to_nat (h mod size self).

Definition bit (self : BloomFilter) (h : Z) : bool :=
  match bloomFilter self !! index self h with
  | Some b => b
  | None => false
  end.

(** One iteration of [insert] at [h], when the index is in range. *)
Definition set_bit (self : BloomFilter) (h : Z) : BloomFilter :=
  {| bloomFilter := <[index self h := true]> (bloomFilter self);
     size := size self;
     bitsSet := if bit self h then bitsSet self else bitsSet self + 1;
     numHashes := numHashes self |}.

(** The formula of the projected rate, from the three counters. *)
Definition projected_rate (capacityBits bitsSetCount hashCount : Z) : result Py.number :=
  let* phi := Py.int_truediv (capacityBits - bitsSetCount) capacityBits in
  let* base := Py.rsub 1 (Py.Float phi) in
  Py.pow_int libm_pow base hashCount.

(** The sizing formula in the three steps of its description:
    [phi = 1 - P^(1/d)], then [N = d / (1 - phi^(1/n))], then the floor of
    [N]. *)
Definition sizing_phi (P : Py.float) (d : Z) : result Py.number :=
  let* inv_d := Py.int_truediv 1 d in
  let* r := Py.pow libm_pow (Py.Float P) inv_d in
  Py.rsub 1 r.

Definition sizing_N (n d : Z) (phi : Py.number) : result Py.number :=
  let* inv_n := Py.int_truediv 1 n in
  let* y := Py.pow libm_pow phi inv_n in
  let* den := Py.rsub 1 y in
  Py.rtruediv d den.

Definition sizing_formula (n d : Z) (P : Py.float) : result Z :=
  let* phi := sizing_phi P d in
  let* N := sizing_N n d phi in
  Py.floor N.

(** The calls that only read. *)
Definition is_read (o : op) : bool :=
  match o with
  | Insert _ => false
  | _ => true
  end.

(** The parameters the constructor is meant for:
    [numKeys > 0], [numHashes > 0] and [0 < maxFalsePositive < 1]. *)
Definition valid_parameters (numKeys numHashes : Z) (maxFalsePositive : Py.float) : bool :=
  (0 <? numKeys) && (0 <? numHashes) &&
  SFltb Py.zero maxFalsePositive && SFltb maxFalsePositive Py.one.

(** The storage has the length the object records, and the counter is the
    number of bits that are one. *)
Record consistent (self : BloomFilter) : Prop := {
  consistent_length : length (bloomFilter self) = Z.to_nat (size self);
  consistent_count : bitsSet self = BitVector.count_ones (bloomFilter self)
}.

(** [self'] is [self] with some more bits set. *)
Record grows (self self' : BloomFilter) : Prop := {
  grows_size : size self' = size self;
  grows_numHashes : numHashes self' = numHashes self;
  grows_bitsSet : bitsSet self <= bitsSet self';
  grows_bits : forall j : nat,
    bloomFilter self !! j = Some true -> bloomFilter self' !! j = Some true
}.

End Filter.

(** A hash function and a [pow] to run the definitions on: keys are integers,
    and [pow] is right at the exponent [1.0]. *)
Definition sample : Collaborators :=
  {| Key := Z;
     BitHash := fun key seed => key + 3 * seed + 1;
     libm_pow := fun x _ => Ok x |}.

(** Calls on a sample filter. *)
Definition sample_calls : list (@op sample) :=
  [@Insert sample 7; @Find sample 5; @FalsePositiveRate sample].

Definition sample_more_calls : list (@op sample) :=
  [@Insert sample 8; @NumBitsSet sample; @Find sample 8].

(** [float('inf')] and [1e-17]. *)
Definition infinity : Py.float := S754_infinity false.
Definition tiny : Py.float := S754_finite false 6490371073168535 (-109).

(** ** The driver, and what a sequence of calls inserts *)

(** What the three [print] statements of [__main] show, as values rather than
    as their decimal strings. *)
Record report : Set := mkReport {
  projected : Py.number;
  missing : Z;
  actual : Py.float
}.

Section Driver.

Context `{Collaborators}.

(** The empty string, which [readline] returns at the end of the file. *)
Variable empty : Key.

(** [fin.readline()] on an open file, given as the lines not read yet. *)
Definition readline (fin : list Key) : Key * list Key :=
  match fin with
  | [] => (empty, [])
  | word :: rest => (word, rest)
  end.

(** The first loop of [__main]: read [i] words and insert each. *)
Fixpoint insert_words (i : nat) (fin : list Key) : method (list Key) :=
  match i with
  | O => ret fin
  | S i' =>
      let (word, fin') := readline fin in
      let! _ := insert word in
      insert_words i' fin'
  end.

(** The second loop: count the words read that [find] does not report. *)
Fixpoint count_missing (i : nat) (fin : list Key) (missing : Z) : method (Z * list Key) :=
  match i with
  | O => ret (missing, fin)
  | S i' =>
      let (word, fin') := readline fin in
      let! b := find word in
      count_missing i' fin' (if negb b then missing + 1 else missing)
  end.

(** The third loop: count the words read that [find] reports. *)
Fixpoint count_found (i : nat) (fin : list Key) (found : Z) : method (Z * list Key) :=
  match i with
  | O => ret (found, fin)
  | S i' =>
      let (word, fin') := readline fin in
      let! b := find word in
      count_found i' fin' (if b then found + 1 else found)
  end.

(** [__main] for given parameters and a given word list. *)
Definition main_with (numKeys numHashes : Z) (maxFalse : Py.float)
    (wordlist : list Key) : result report :=
  let* b := init numKeys numHashes maxFalse in
  fst ((let! _ := insert_words (Z.to_nat numKeys) wordlist in
        let! rate := falsePositiveRate in
        let! m := count_missing (Z.to_nat numKeys) wordlist 0 in
        let! f := count_found (Z.to_nat numKeys) (snd m) 0 in
        let! ratio := lift (Py.int_truediv (fst f) numKeys) in
        ret (mkReport rate (fst m) ratio)) b).

(** [.05]. *)
Definition five_percent : Py.float := S754_finite false 7205759403792794 (-57).

(** [__main]. *)
Definition main (wordlist : list Key) : result report :=
  main_with 100000 4 five_percent wordlist.

(** The keys a sequence of calls inserts, in order. *)
Fixpoint inserted (ops : list op) : list Key :=
  match ops with
  | [] => []
  | Insert key :: ops' => key :: inserted ops'
  | _ :: ops' => inserted ops'
  end.

(** The positions of the storage a key selects. *)
Definition positions (self : BloomFilter) (key : Key) : list nat :=
  map (index self) (hashes_of self key).

(** The words [i] calls of [readline] return. *)
Fixpoint words_read (i : nat) (fin : list Key) : list Key :=
  match i with
  | O => []
  | S i' => fst (readline fin) :: words_read i' (snd (readline fin))
  end.

End Driver.

(** * Facts *)

(** ** Rounding never loses a whole number *)

Module PyFacts.

Import Py.

Lemma shr_record_of_loc_m (m : Z) (l : location) :
  shr_m (shr_record_of_loc m l) = m.
Proof. destruct l as [|[]]; reflexivity. Qed.

Lemma shr_1_digits (s : shr_record) :
  0 <= shr_m s ->
  0 <= shr_m (shr_1 s) /\
  Zdigits2 (shr_m (shr_1 s)) = Z.max 0 (Zdigits2 (shr_m s) - 1).
Proof.
  destruct s as [m r t]; simpl; intros Hm.
  destruct m as [|p|p]; [simpl; lia| |lia].
  destruct p; simpl; lia.
Qed.

Lemma iter_shr_1_digits (p : positive) :
  forall s : shr_record,
    0 <= shr_m s ->
    0 <= shr_m (SpecFloat.iter_pos shr_1 p s) /\
    Zdigits2 (shr_m (SpecFloat.iter_pos shr_1 p s)) = Z.max 0 (Zdigits2 (shr_m s) - Z.pos p).
Proof.
  induction p as [p IH|p IH|]; intros s Hs; simpl.
  - destruct (shr_1_digits s Hs) as [H1 E1].
    destruct (IH _ H1) as [H2 E2].
    destruct (IH _ H2) as [H3 E3].
    split; [exact H3|]. rewrite E3, E2, E1. lia.
  - destruct (IH _ Hs) as [H2 E2].
    destruct (IH _ H2) as [H3 E3].
    split; [exact H3|]. rewrite E3, E2. lia.
  - apply shr_1_digits, Hs.
Qed.

Lemma Zdigits2_pos_inv (m : Z) : 0 <= m -> 0 < Zdigits2 m -> exists p, m = Z.pos p.
Proof. destruct m as [|p|p]; simpl; intros; [lia|eauto|lia]. Qed.

(** Shifting a positive mantissa to its canonical exponent leaves a positive
    mantissa, as long as the exponent is not below the least one. *)
Lemma shr_fexp_pos (m : positive) (e : Z) (l : location) :
  emin prec emax <= e ->
  exists m' e',
    shr_fexp prec emax (Z.pos m) e l = (m', e') /\
    (exists p, shr_m m' = Z.pos p) /\ emin prec emax <= e'.
Proof.
  intros He. unfold shr_fexp, shr.
  set (n := fexp prec emax (Zdigits2 (Z.pos m) + e) - e).
  assert (Hn : n < Zdigits2 (Z.pos m)).
  { subst n. unfold fexp, emin, prec, emax in *. simpl Zdigits2. lia. }
  destruct n as [|q|q] eqn:En.
  - eexists _, _. split; [reflexivity|]. rewrite shr_record_of_loc_m. eauto.
  - eexists _, _. split; [reflexivity|]. split; [|lia].
    destruct (iter_shr_1_digits q (shr_record_of_loc (Z.pos m) l)) as [H1 E1].
    { rewrite shr_record_of_loc_m. lia. }
    rewrite shr_record_of_loc_m in E1.
    apply Zdigits2_pos_inv; [exact H1|]. rewrite E1. lia.
  - eexists _, _. split; [reflexivity|]. rewrite shr_record_of_loc_m. eauto.
Qed.

Lemma round_nearest_even_pos (m : positive) (l : location) :
  exists p, round_nearest_even (Z.pos m) l = Z.pos p.
Proof.
  destruct l as [|[]]; simpl; eauto.
  destruct m; simpl; eauto.
Qed.

(** Rounding a positive mantissa gives a finite float or an infinity of the
    same sign, never a zero. *)
Lemma binary_round_aux_pos (s : bool) (m : positive) (e : Z) (l : location) :
  emin prec emax <= e ->
  (exists m' e', binary_round_aux prec emax s (Z.pos m) e l = S754_finite s m' e') \/
  binary_round_aux prec emax s (Z.pos m) e l = S754_infinity s.
Proof.
  intros He. unfold binary_round_aux.
  destruct (shr_fexp_pos m e l He) as (m1 & e1 & -> & [p1 Hp1] & He1).
  rewrite Hp1.
  destruct (round_nearest_even_pos p1 (loc_of_shr_record m1)) as [p2 ->].
  destruct (shr_fexp_pos p2 e1 loc_Exact He1) as (m2 & e2 & -> & [p3 ->] & He2).
  destruct (e2 <=? emax - prec); eauto.
Qed.

Lemma float_of_int_pos (d : Z) (w : float) :
  0 < d -> float_of_int d = Ok w -> exists m e, w = S754_finite false m e.
Proof.
  intros Hd. destruct d as [|p|p]; try lia.
  unfold float_of_int, binary_normalize, binary_round.
  destruct (shl_align p 0 (fexp prec emax (Z.pos (digits2_pos p) + 0))) as [mz ez] eqn:Ea.
  assert (He : emin prec emax <= ez).
  { revert Ea. unfold shl_align, fexp, emin, prec, emax.
    destruct (Z.max (Z.pos (digits2_pos p) + 0 - 53) (3 - 1024 - 53) - 0) eqn:E;
      intros [= <- <-]; lia. }
  destruct (binary_round_aux_pos false mz ez loc_Exact He) as [(m' & e' & ->)| ->].
  - intros [= <-]. eauto.
  - discriminate.
Qed.

Lemma div_eucl_pair (a b : Z) : Z.div_eucl a b = (a / b, a mod b).
Proof. unfold Z.div, Z.modulo. destruct (Z.div_eucl a b); reflexivity. Qed.

Lemma SFdiv_core_self (p : positive) :
  SFdiv_core_binary prec emax (Z.pos p) 0 (Z.pos p) 0 = (2 ^ 53, -53, loc_Exact).
Proof.
  unfold SFdiv_core_binary.
  replace (Zdigits2 (Z.pos p) + 0 - (Zdigits2 (Z.pos p) + 0)) with 0 by lia.
  change (Z.min (fexp prec emax 0) (0 - 0)) with (-53).
  change (0 - 0 - -53) with 53.
  cbv beta iota zeta.
  rewrite div_eucl_pair, Z.shiftl_mul_pow2 by lia.
  rewrite (Z.mul_comm (Z.pos p)), Z.div_mul, Z.mod_mul by lia.
  unfold new_location. destruct (Z.even (Z.pos p)); reflexivity.
Qed.

(** [z / z] is exactly [1.0], however large [z] is. *)
Lemma int_truediv_self (z : Z) : z <> 0 -> int_truediv z z = Ok one.
Proof.
  intros Hz. unfold int_truediv.
  destruct (Z.eqb_spec z 0) as [|_]; [contradiction|].
  destruct z as [|p|p]; [contradiction| |];
    unfold exact, SFdiv; rewrite SFdiv_core_self; reflexivity.
Qed.

Lemma int_truediv_zero (a : Z) : int_truediv a 0 = Raise ZeroDivisionError.
Proof. reflexivity. Qed.

(** [0.0 ** w] is [0.0] for a positive finite [w]: the interpreter decides
    it without the platform's [pow]. *)
Lemma float_pow_zero_pos (pow : float -> float -> result float) (m : positive) (e : Z) :
  float_pow pow zero (S754_finite false m e) = Ok (Float zero).
Proof.
  unfold float_pow. cbn.
  destruct (0 <? e); [reflexivity|]. destruct (_ && _); reflexivity.
Qed.

Lemma rsub_one_one : rsub 1 (Float one) = Ok (Float zero).
Proof. reflexivity. Qed.

(** Whatever the denominator, [d / v] converts [d] first. *)
Lemma rtruediv_converts (d : Z) (v q : number) :
  rtruediv d v = Ok q -> exists w, float_of_int d = Ok w.
Proof.
  unfold rtruediv. destruct (float_of_int d) as [w|e]; [eauto|discriminate].
Qed.

(** Truncation toward zero is the floor when the outcome is positive. *)
Lemma float_int_floor (x : float) (k : Z) :
  0 < k -> float_int x = Ok k <-> float_floor x = Ok k.
Proof.
  intros Hk. destruct x as [s|s| |s m e]; simpl; try tauto.
  destruct (Z.leb_spec 0 e) as [He|He].
  - destruct s; simpl; [|tauto].
    rewrite <- Pos2Z.opp_pos, Z.mul_opp_l. tauto.
  - assert (Hp : 0 < 2 ^ (- e)) by (apply Z.pow_pos_nonneg; lia).
    destruct s; [|tauto].
    pose proof (Z.div_pos (Z.pos m) (2 ^ (- e)) ltac:(lia) Hp) as H1.
    assert (H2 : Z.neg m / 2 ^ (- e) < 0) by (apply Z.div_lt_upper_bound; lia).
    split; intros [= E]; lia.
Qed.

Lemma int_floor (v : number) (k : Z) : 0 < k -> int v = Ok k <-> floor v = Ok k.
Proof. intros Hk. destruct v as [x|]; [apply float_int_floor, Hk|tauto]. Qed.

End PyFacts.

(** ** The bit vector *)

Module BitVectorFacts.

Import BitVector.

Lemma length_new (n : Z) : length (new n) = Z.to_nat n.
Proof. apply length_replicate. Qed.

Lemma lookup_new (n : Z) (j : nat) (b : bool) : new n !! j = Some b -> b = false.
Proof. unfold new. intros Hj. apply lookup_replicate in Hj. tauto. Qed.

Lemma count_ones_cons (b : bool) (v : t) :
  count_ones (b :: v) = (if b then 1 else 0) + count_ones v.
Proof.
  unfold count_ones. rewrite filter_cons.
  destruct b; case_decide; try congruence; simpl length; lia.
Qed.

Lemma count_ones_new (n : Z) : count_ones (new n) = 0.
Proof.
  unfold new. induction (Z.to_nat n) as [|k IH]; [reflexivity|].
  simpl replicate. rewrite count_ones_cons, IH. reflexivity.
Qed.

Lemma count_ones_bounds (v : t) : 0 <= count_ones v <= Z.of_nat (length v).
Proof.
  induction v as [|b v IH]; [unfold count_ones; simpl; lia|].
  rewrite count_ones_cons. simpl length. destruct b; lia.
Qed.

(** Setting a bit adds one to the count exactly when the bit was zero. *)
Lemma count_ones_set (v : t) (i : nat) :
  count_ones (<[i := true]> v) =
  count_ones v + match v !! i with Some false => 1 | _ => 0 end.
Proof.
  revert i. induction v as [|b v IH]; intros i; [destruct i; reflexivity|].
  destruct i as [|i]; simpl.
  - rewrite !count_ones_cons. destruct b; lia.
  - rewrite !count_ones_cons, IH. lia.
Qed.

Lemma getitem_in_range (v : t) (i : Z) :
  0 <= i -> (Z.to_nat i < length v)%nat ->
  exists b, v !! Z.to_nat i = Some b /\ getitem v i = Ok b.
Proof.
  intros Hi Hlt. unfold getitem.
  destruct (Z.leb_spec 0 i); [|lia].
  destruct (lookup_lt_is_Some_2 v (Z.to_nat i) Hlt) as [b Hb].
  exists b. rewrite Hb. auto.
Qed.

Lemma setitem_in_range (v : t) (i : Z) (b : bool) :
  0 <= i -> (Z.to_nat i < length v)%nat ->
  setitem v i b = Ok (<[Z.to_nat i := b]> v).
Proof.
  intros Hi Hlt. unfold setitem.
  destruct (Z.leb_spec 0 i); [|lia].
  destruct (Nat.ltb_spec (Z.to_nat i) (length v)); [reflexivity|lia].
Qed.

Lemma getitem_empty (i : Z) : getitem [] i = Raise IndexError.
Proof. unfold getitem. destruct (0 <=? i); reflexivity. Qed.

End BitVectorFacts.

(** ** The filter *)

Section FilterFacts.

Context `{Collaborators}.

Implicit Types (self : BloomFilter) (h : Z) (key : Key).

Lemma mbind_ok {A B : Type} (c : method A) (k : A -> method B) self (a : A) self' :
  c self = (Ok a, self') -> mbind c k self = k a self'.
Proof. unfold mbind. intros ->. reflexivity. Qed.

Lemma mbind_raise {A B : Type} (c : method A) (k : A -> method B) self (e : exn) self' :
  c self = (Raise e, self') -> mbind c k self = (Raise e, self').
Proof. unfold mbind. intros ->. reflexivity. Qed.

Lemma index_in_range self h :
  0 < size self ->
  length (bloomFilter self) = Z.to_nat (size self) ->
  0 <= h mod size self < size self /\ (index self h < length (bloomFilter self))%nat.
Proof.
  intros Hs Hl. pose proof (Z.mod_pos_bound h (size self) Hs) as Hb.
  split; [exact Hb|]. unfold index. rewrite Hl. lia.
Qed.

(** *** Reading a bit *)

Lemma probe_unchanged h self : snd (probe h self) = self.
Proof.
  unfold probe, mbind, attr, lift; simpl.
  destruct (Py.mod_ h (size self)); reflexivity.
Qed.

Lemma probe_in_range h self :
  0 < size self ->
  length (bloomFilter self) = Z.to_nat (size self) ->
  probe h self = (Ok (bit self h), self).
Proof.
  intros Hs Hl. destruct (index_in_range self h Hs Hl) as [Hb Hi].
  unfold probe, mbind, attr, lift, Py.mod_; simpl.
  destruct (Z.eqb_spec (size self) 0) as [E|_]; [lia|].
  destruct (BitVectorFacts.getitem_in_range (bloomFilter self) (h mod size self))
    as (b & Hb1 & ->); [lia|exact Hi|].
  unfold bit, index. rewrite Hb1. reflexivity.
Qed.

Lemma probe_degenerate h self :
  size self <= 0 ->
  length (bloomFilter self) = Z.to_nat (size self) ->
  exists e, probe h self = (Raise e, self).
Proof.
  intros Hs Hl. unfold probe, mbind, attr, lift, Py.mod_; simpl.
  destruct (Z.eqb_spec (size self) 0) as [E|E]; [eauto|].
  destruct (bloomFilter self) as [|b v]; [|simpl in Hl; lia].
  rewrite BitVectorFacts.getitem_empty. eauto.
Qed.

(** *** Setting a bit *)

Lemma mark_in_range h self :
  0 < size self ->
  length (bloomFilter self) = Z.to_nat (size self) ->
  mark h self =
  (Ok tt, mkBloomFilter (<[index self h := true]> (bloomFilter self))
                        (size self) (bitsSet self) (numHashes self)).
Proof.
  intros Hs Hl. destruct (index_in_range self h Hs Hl) as [Hb Hi].
  unfold mark, mbind, attr, lift, Py.mod_, set_bloomFilter; simpl.
  destruct (Z.eqb_spec (size self) 0) as [E|_]; [lia|].
  rewrite BitVectorFacts.setitem_in_range by (lia || exact Hi).
  reflexivity.
Qed.

(** One iteration of the loop of [insert] is [set_bit]. *)
Lemma insert_loop_step key (i : nat) h self :
  0 < size self ->
  length (bloomFilter self) = Z.to_nat (size self) ->
  insert_loop key (S i) h self = insert_loop key i (BitHash key h) (set_bit self h).
Proof.
  intros Hs Hl. simpl insert_loop.
  rewrite (mbind_ok _ _ _ _ _ (probe_in_range h self Hs Hl)).
  unfold set_bit. destruct (bit self h) eqn:Eb.
  - rewrite (mbind_ok _ _ self tt self) by reflexivity.
    rewrite (mbind_ok _ _ _ _ _ (mark_in_range h self Hs Hl)).
    reflexivity.
  - set (self1 := mkBloomFilter (bloomFilter self) (size self) (bitsSet self + 1)
                                (numHashes self)).
    rewrite (mbind_ok _ _ self tt self1) by reflexivity.
    rewrite (mbind_ok _ _ _ _ _ (mark_in_range h self1 Hs Hl)).
    reflexivity.
Qed.

Lemma insert_loop_degenerate key (i : nat) h self :
  size self <= 0 ->
  length (bloomFilter self) = Z.to_nat (size self) ->
  snd (insert_loop key i h self) = self.
Proof.
  intros Hs Hl. destruct i as [|i]; [reflexivity|]. simpl insert_loop.
  destruct (probe_degenerate h self Hs Hl) as [e He].
  rewrite (mbind_raise _ _ _ _ _ He). reflexivity.
Qed.

(** *** What [set_bit] keeps *)

Lemma set_bit_length self h :
  length (bloomFilter (set_bit self h)) = length (bloomFilter self).
Proof. apply length_insert. Qed.

Lemma set_bit_consistent self h :
  0 < size self -> consistent self -> consistent (set_bit self h).
Proof.
  intros Hs [Hl Hc]. split.
  - rewrite set_bit_length. exact Hl.
  - destruct (index_in_range self h Hs Hl) as [_ Hi].
    destruct (lookup_lt_is_Some_2 _ _ Hi) as [b Hb].
    simpl. rewrite BitVectorFacts.count_ones_set. unfold bit. rewrite Hb.
    destruct b; lia.
Qed.

Lemma set_bit_grows self h : grows self (set_bit self h).
Proof.
  split; try reflexivity.
  - simpl. destruct (bit self h); lia.
  - intros j Hj. simpl.
    destruct (decide (index self h = j)) as [<-|Hne].
    + rewrite list_lookup_insert_eq; [reflexivity|].
      apply lookup_lt_is_Some_1. eauto.
    + rewrite list_lookup_insert_ne by exact Hne. exact Hj.
Qed.

Lemma set_bit_bit self h :
  0 < size self ->
  length (bloomFilter self) = Z.to_nat (size self) ->
  bit (set_bit self h) h = true.
Proof.
  intros Hs Hl. destruct (index_in_range self h Hs Hl) as [_ Hi].
  unfold bit, index. simpl. fold (index self h).
  rewrite list_lookup_insert_eq by exact Hi. reflexivity.
Qed.

Lemma grows_refl self : grows self self.
Proof. split; auto; lia. Qed.

Lemma grows_trans self1 self2 self3 :
  grows self1 self2 -> grows self2 self3 -> grows self1 self3.
Proof.
  intros [A1 A2 A3 A4] [B1 B2 B3 B4]. split; try congruence; [lia|auto].
Qed.

Lemma grows_bit self self' h : grows self self' -> bit self h = true -> bit self' h = true.
Proof.
  intros [Hs _ _ Hb]. unfold bit, index. rewrite Hs.
  destruct (bloomFilter self !! Z.to_nat (h mod size self)) as [[]|] eqn:E;
    try discriminate.
  intros _. rewrite (Hb _ E). reflexivity.
Qed.

(** *** The loops *)

Lemma foldl_set_bit_grows (hs : list Z) self : grows self (foldl set_bit self hs).
Proof.
  revert self. induction hs as [|h hs IH]; intros self; [apply grows_refl|].
  simpl. eapply grows_trans; [apply set_bit_grows|apply IH].
Qed.

Lemma foldl_set_bit_consistent (hs : list Z) self :
  0 < size self -> consistent self -> consistent (foldl set_bit self hs).
Proof.
  revert self. induction hs as [|h hs IH]; intros self Hs Hc; [exact Hc|].
  simpl. apply IH; [exact Hs|apply set_bit_consistent; assumption].
Qed.

(** Every bit the loop was asked to set is one afterwards. *)
Lemma foldl_set_bit_bits (hs : list Z) self :
  0 < size self -> consistent self ->
  Forall (fun h => bit (foldl set_bit self hs) h = true) hs.
Proof.
  revert self. induction hs as [|h hs IH]; intros self Hs Hc; [constructor|].
  simpl. constructor.
  - eapply grows_bit; [apply foldl_set_bit_grows|].
    apply set_bit_bit; [exact Hs|apply Hc].
  - apply IH; [exact Hs|apply set_bit_consistent; assumption].
Qed.

Lemma insert_loop_in_range key (i : nat) :
  forall h self,
    0 < size self ->
    length (bloomFilter self) = Z.to_nat (size self) ->
    insert_loop key i h self = (Ok tt, foldl set_bit self (hashes key i h)).
Proof.
  induction i as [|i IH]; intros h self Hs Hl; [reflexivity|].
  rewrite insert_loop_step by assumption. simpl hashes. simpl foldl.
  apply IH; [exact Hs|]. rewrite set_bit_length. exact Hl.
Qed.

Lemma find_loop_unchanged key (i : nat) : forall h self, snd (find_loop key i h self) = self.
Proof.
  induction i as [|i IH]; intros h self; [reflexivity|].
  simpl find_loop. unfold mbind.
  pose proof (probe_unchanged h self) as Hp.
  destruct (probe h self) as [[[]|e] self']; simpl in Hp; subst self'; auto.
Qed.

Lemma find_loop_in_range key (i : nat) :
  forall h self,
    0 < size self ->
    length (bloomFilter self) = Z.to_nat (size self) ->
    find_loop key i h self = (Ok (forallb (bit self) (hashes key i h)), self).
Proof.
  induction i as [|i IH]; intros h self Hs Hl; [reflexivity|].
  simpl find_loop. rewrite (mbind_ok _ _ _ _ _ (probe_in_range h self Hs Hl)).
  simpl hashes. simpl forallb. destruct (bit self h); [auto|reflexivity].
Qed.

(** *** The methods *)

Lemma insert_in_range key self :
  0 < size self ->
  length (bloomFilter self) = Z.to_nat (size self) ->
  insert key self = (Ok tt, foldl set_bit self (hashes_of self key)).
Proof. intros Hs Hl. unfold insert, mbind, attr. apply insert_loop_in_range; assumption. Qed.

Lemma find_in_range key self :
  0 < size self ->
  length (bloomFilter self) = Z.to_nat (size self) ->
  find key self = (Ok (forallb (bit self) (hashes_of self key)), self).
Proof. intros Hs Hl. unfold find, mbind, attr. apply find_loop_in_range; assumption. Qed.

Lemma find_unchanged key self : snd (find key self) = self.
Proof. unfold find, mbind, attr. apply find_loop_unchanged. Qed.

Lemma falsePositiveRate_formula self :
  falsePositiveRate self =
  (projected_rate (size self) (bitsSet self) (numHashes self), self).
Proof.
  unfold falsePositiveRate, projected_rate, mbind, attr, lift, bind.
  destruct (Py.int_truediv _ _) as [phi|e]; [|reflexivity].
  destruct (Py.rsub 1 _); reflexivity.
Qed.

Lemma insert_keeps key self :
  consistent self ->
  consistent (snd (insert key self)) /\ grows self (snd (insert key self)).
Proof.
  intros Hc. destruct (Z.lt_ge_cases 0 (size self)) as [Hs|Hs].
  - rewrite insert_in_range by (exact Hs || apply Hc). simpl.
    split; [apply foldl_set_bit_consistent; assumption|apply foldl_set_bit_grows].
  - unfold insert, mbind, attr.
    rewrite insert_loop_degenerate by (exact Hs || apply Hc).
    split; [exact Hc|apply grows_refl].
Qed.

Lemma call_read_only (o : op) self :
  (forall key, o <> Insert key) -> snd (call o self) = self.
Proof.
  intros Ho. destruct o as [key|key| |]; simpl; unfold mbind.
  - destruct (Ho key eq_refl).
  - pose proof (find_unchanged key self) as Hf.
    destruct (find key self) as [[b|e] self']; simpl in *; congruence.
  - rewrite falsePositiveRate_formula. destruct (projected_rate _ _ _); reflexivity.
  - reflexivity.
Qed.

Lemma call_keeps (o : op) self :
  consistent self ->
  consistent (snd (call o self)) /\ grows self (snd (call o self)).
Proof.
  intros Hc. destruct o as [key|key| |].
  - destruct (insert_keeps key self Hc) as [H1 H2].
    simpl. unfold mbind.
    destruct (insert key self) as [[[]|e] self']; simpl in *; auto.
  - rewrite call_read_only by discriminate. split; [exact Hc|apply grows_refl].
  - rewrite call_read_only by discriminate. split; [exact Hc|apply grows_refl].
  - rewrite call_read_only by discriminate. split; [exact Hc|apply grows_refl].
Qed.

Lemma run_keeps (ops : list op) :
  forall self,
    consistent self -> consistent (run ops self) /\ grows self (run ops self).
Proof.
  induction ops as [|o ops IH]; intros self Hc; [split; [exact Hc|apply grows_refl]|].
  simpl. destruct (call_keeps o self Hc) as [H1 H2].
  destruct (IH _ H1) as [H3 H4].
  split; [exact H3|eapply grows_trans; eassumption].
Qed.

(** *** Construction *)

Lemma fresh_consistent (num d : Z) : consistent (fresh num d).
Proof.
  split; simpl.
  - apply BitVectorFacts.length_new.
  - symmetry. apply BitVectorFacts.count_ones_new.
Qed.

Lemma init_fresh (n d : Z) (P : Py.float) self :
  init n d P = Ok self -> self = fresh (size self) d.
Proof.
  unfold init, bind. destruct (bitsNeeded n d P); [|discriminate].
  intros [= <-]. reflexivity.
Qed.

Lemma init_consistent (n d : Z) (P : Py.float) self :
  init n d P = Ok self -> consistent self.
Proof. intros Hi. rewrite (init_fresh _ _ _ _ Hi). apply fresh_consistent. Qed.

Lemma bit_fresh (num d h : Z) : bit (fresh num d) h = false.
Proof.
  unfold bit. simpl.
  destruct (BitVector.new num !! _) as [b|] eqn:E; [|reflexivity].
  apply (BitVectorFacts.lookup_new _ _ _ E).
Qed.

End FilterFacts.

(** ** The claims *)

Section Claims.

Context `{Collaborators}.

Implicit Types (self : BloomFilter) (h : Z) (key : Key).

Lemma set_bit_id self h :
  (index self h < length (bloomFilter self))%nat ->
  bit self h = true -> set_bit self h = self.
Proof.
  intros Hi Hb. unfold set_bit. rewrite Hb.
  destruct (lookup_lt_is_Some_2 _ _ Hi) as [b Hl].
  unfold bit in Hb. rewrite Hl in Hb. subst b.
  rewrite list_insert_id by exact Hl. destruct self; reflexivity.
Qed.

Lemma foldl_set_bit_id (hs : list Z) self :
  0 < size self ->
  length (bloomFilter self) = Z.to_nat (size self) ->
  Forall (fun h => bit self h = true) hs ->
  foldl set_bit self hs = self.
Proof.
  intros Hs Hl. induction 1 as [|h hs Hh _ IH]; [reflexivity|].
  simpl. rewrite set_bit_id; [exact IH| |exact Hh].
  apply index_in_range; assumption.
Qed.

Lemma hashes_of_grows self self' key : grows self self' -> hashes_of self' key = hashes_of self key.
Proof. intros [_ Hd _ _]. unfold hashes_of. rewrite Hd. reflexivity. Qed.

Lemma forallb_bit self (hs : list Z) :
  Forall (fun h => bit self h = true) hs -> forallb (bit self) hs = true.
Proof. induction 1 as [|h hs Hh _ IH]; [reflexivity|]. simpl. rewrite Hh. exact IH. Qed.

Lemma bitsNeeded_converts (n d : Z) (P : Py.float) (num : Z) :
  bitsNeeded n d P = Ok num -> exists w, Py.float_of_int d = Ok w.
Proof.
  unfold bitsNeeded, bind.
  destruct (Py.int_truediv 1 d); [|discriminate].
  destruct (Py.pow _ _ _); [|discriminate].
  destruct (Py.rsub 1 _); [|discriminate].
  destruct (Py.int_truediv 1 n); [|discriminate].
  destruct (Py.pow _ _ _); [|discriminate].
  destruct (Py.rsub 1 _) as [den|]; [|discriminate].
  destruct (Py.rtruediv d den) as [q|] eqn:E; [|discriminate].
  intros _. eapply PyFacts.rtruediv_converts, E.
Qed.

(** C1.  No false negatives: on a filter the constructor returned with a
    positive size, after any calls, [insert key] returns, and [find key]
    returns [True] after it, whatever calls come in between. *)
Theorem no_false_negatives (n d : Z) (P : Py.float) self0 (before after : list op) key :
  init n d P = Ok self0 ->
  0 < size self0 ->
  let self := run before self0 in
  exists self1,
    insert key self = (Ok tt, self1) /\
    find key (run after self1) = (Ok true, run after self1).
Proof.
  intros Hi Hs self.
  destruct (run_keeps before self0 (init_consistent _ _ _ _ Hi)) as [Hc Hg].
  fold self in Hc, Hg.
  assert (Hs1 : 0 < size self) by (rewrite (grows_size _ _ Hg); exact Hs).
  eexists. split; [apply insert_in_range; [exact Hs1|apply Hc]|].
  set (self1 := foldl set_bit self (hashes_of self key)).
  assert (Hc1 : consistent self1). { apply foldl_set_bit_consistent. all: assumption. }
  destruct (run_keeps after self1 Hc1) as [Hc2 Hg2].
  assert (Hg1 : grows self self1) by apply foldl_set_bit_grows.
  assert (Hs2 : 0 < size (run after self1)).
  { rewrite (grows_size _ _ Hg2), (grows_size _ _ Hg1). exact Hs1. }
  rewrite find_in_range by (exact Hs2 || apply Hc2).
  rewrite forallb_bit; [reflexivity|].
  rewrite (hashes_of_grows _ _ key (grows_trans _ _ _ Hg1 Hg2)).
  eapply Forall_impl; [exact (foldl_set_bit_bits (hashes_of self key) self Hs1 Hc)|].
  intros h Hh. eapply grows_bit; [exact Hg2|exact Hh].
Qed.

(** C2.  Accounting: after construction and any sequence of calls,
    [numBitsSet()] is the number of one bits in the storage; the same holds
    after every iteration of the loop of [insert], so the counter moves only
    together with the storage. *)
Theorem numBitsSet_counts_ones (n d : Z) (P : Py.float) self0 (ops : list op) :
  init n d P = Ok self0 ->
  let self := run ops self0 in
  numBitsSet self = (Ok (BitVector.count_ones (bloomFilter self)), self) /\
  forall key (i : nat) h,
    bitsSet (snd (insert_loop key i h self)) =
    BitVector.count_ones (bloomFilter (snd (insert_loop key i h self))).
Proof.
  intros Hi self.
  destruct (run_keeps ops self0 (init_consistent _ _ _ _ Hi)) as [Hc _].
  fold self in Hc. split.
  - unfold numBitsSet, attr. rewrite (consistent_count _ Hc). reflexivity.
  - intros key i h. destruct (Z.lt_ge_cases 0 (size self)) as [Hs|Hs].
    + rewrite insert_loop_in_range by (exact Hs || apply Hc). simpl.
      apply consistent_count, foldl_set_bit_consistent; assumption.
    + rewrite insert_loop_degenerate by (exact Hs || apply Hc). apply Hc.
Qed.

Lemma run_size (ops : list op) (n d : Z) (P : Py.float) self0 :
  init n d P = Ok self0 ->
  consistent (run ops self0) /\ grows self0 (run ops self0).
Proof. intros Hi. apply run_keeps, (init_consistent _ _ _ _ Hi). Qed.

(** C5.  [find] reads the bits at the hash values [insert] sets, returns
    [True] exactly when all of them are one, returns [False] as soon as the
    bit it reads is zero, and returns [False] for every key on the filter as
    constructed (with at least one hash). *)
Theorem find_semantics (n d : Z) (P : Py.float) self0 (ops : list op) key :
  init n d P = Ok self0 ->
  0 < size self0 ->
  let self := run ops self0 in
  insert key self = (Ok tt, foldl set_bit self (hashes_of self key)) /\
  find key self = (Ok (forallb (bit self) (hashes_of self key)), self) /\
  (forall (i : nat) h,
      bit self h = false -> find_loop key (S i) h self = (Ok false, self)) /\
  (0 < d -> find key self0 = (Ok false, self0)).
Proof.
  intros Hi Hs self.
  destruct (run_size ops _ _ _ _ Hi) as [Hc Hg]. fold self in Hc, Hg.
  assert (Hs1 : 0 < size self) by (rewrite (grows_size _ _ Hg); exact Hs).
  split; [apply insert_in_range; [exact Hs1|apply Hc]|].
  split; [apply find_in_range; [exact Hs1|apply Hc]|].
  split.
  - intros i h Hb. simpl find_loop.
    rewrite (mbind_ok _ _ _ _ _ (probe_in_range h self Hs1 (consistent_length _ Hc))).
    rewrite Hb. reflexivity.
  - intros Hd. pose proof (init_consistent _ _ _ _ Hi) as Hc0.
    rewrite find_in_range by (exact Hs || apply Hc0).
    rewrite (init_fresh _ _ _ _ Hi). unfold hashes_of. simpl numHashes.
    destruct (Z.to_nat d) as [|i] eqn:Ed; [lia|].
    simpl. rewrite bit_fresh. reflexivity.
Qed.

(** C6.  [falsePositiveRate()] is [(1 - phi) ** hashCount] with
    [phi = (capacityBits - bitsSetCount) / capacityBits], a function of the
    three counters alone that leaves the object as it is; on the filter as
    constructed it is [0.0]. *)
Theorem falsePositiveRate_projection (n d : Z) (P : Py.float) self0 (ops : list op) :
  init n d P = Ok self0 ->
  0 < size self0 ->
  0 < d ->
  let self := run ops self0 in
  falsePositiveRate self =
    (projected_rate (size self) (bitsSet self) (numHashes self), self) /\
  falsePositiveRate self0 = (Ok (Py.Float Py.zero), self0).
Proof.
  intros Hi Hs Hd self. split; [apply falsePositiveRate_formula|].
  rewrite falsePositiveRate_formula. f_equal.
  assert (Hw : exists w, Py.float_of_int d = Ok w).
  { revert Hi. unfold init, bind.
    destruct (bitsNeeded n d P) as [num|] eqn:E; [|discriminate].
    intros _. eapply bitsNeeded_converts, E. }
  destruct Hw as [w Hw].
  destruct (PyFacts.float_of_int_pos d w Hd Hw) as (m & e & ->).
  rewrite (init_fresh _ _ _ _ Hi). simpl.
  unfold projected_rate. rewrite Z.sub_0_r, PyFacts.int_truediv_self by lia.
  cbn [bind]. rewrite PyFacts.rsub_one_one. cbn [bind].
  unfold Py.pow_int. rewrite Hw. cbn [bind Py.pow].
  apply PyFacts.float_pow_zero_pos.
Qed.

(** C7.  Monotonicity: along any sequence of calls [numBitsSet()] does not
    decrease and stays within the size, which does not change, and a bit
    that is one stays one. *)
Theorem numBitsSet_monotone (n d : Z) (P : Py.float) self0 (ops1 ops2 : list op) :
  init n d P = Ok self0 ->
  0 < size self0 ->
  let self1 := run ops1 self0 in
  let self2 := run ops2 self1 in
  exists c1 c2 : Z,
    numBitsSet self1 = (Ok c1, self1) /\
    numBitsSet self2 = (Ok c2, self2) /\
    c1 <= c2 /\ c2 <= size self2 /\ size self2 = size self0 /\
    forall j : nat,
      bloomFilter self1 !! j = Some true -> bloomFilter self2 !! j = Some true.
Proof.
  intros Hi Hs self1 self2.
  destruct (run_size ops1 _ _ _ _ Hi) as [Hc1 Hg1]. fold self1 in Hc1, Hg1.
  destruct (run_keeps ops2 self1 Hc1) as [Hc2 Hg2]. fold self2 in Hc2, Hg2.
  exists (bitsSet self1), (bitsSet self2).
  split; [reflexivity|]. split; [reflexivity|].
  split; [apply Hg2|].
  assert (Hsz : size self2 = size self0).
  { rewrite (grows_size _ _ Hg2). apply Hg1. }
  split; [|split; [exact Hsz|apply Hg2]].
  rewrite (consistent_count _ Hc2).
  pose proof (BitVectorFacts.count_ones_bounds (bloomFilter self2)) as Hb.
  rewrite (consistent_length _ Hc2) in Hb. lia.
Qed.

(** C8.  Inserting a key a second time changes nothing: the object after the
    second [insert] is the object after the first, and so is
    [numBitsSet()]. *)
Theorem insert_twice (n d : Z) (P : Py.float) self0 (ops : list op) key :
  init n d P = Ok self0 ->
  let self1 := snd (insert key (run ops self0)) in
  let self2 := snd (insert key self1) in
  self2 = self1 /\ fst (numBitsSet self2) = fst (numBitsSet self1).
Proof.
  intros Hi self1 self2.
  destruct (run_size ops _ _ _ _ Hi) as [Hc _].
  assert (E : self2 = self1); [|split; [exact E|rewrite E; reflexivity]].
  subst self2 self1. set (self := run ops self0) in *.
  destruct (Z.lt_ge_cases 0 (size self)) as [Hs|Hs].
  - rewrite (insert_in_range key self) by (exact Hs || apply Hc). simpl.
    set (self1 := foldl set_bit self (hashes_of self key)).
    assert (Hg : grows self self1) by apply foldl_set_bit_grows.
    assert (Hc1 : consistent self1) by (apply foldl_set_bit_consistent; assumption).
    assert (Hs1 : 0 < size self1) by (rewrite (grows_size _ _ Hg); exact Hs).
    rewrite insert_in_range by (exact Hs1 || apply Hc1). simpl.
    apply foldl_set_bit_id; [exact Hs1|apply Hc1|].
    rewrite (hashes_of_grows _ _ key Hg).
    exact (foldl_set_bit_bits (hashes_of self key) self Hs Hc).
  - assert (E : snd (insert key self) = self).
    { unfold insert, mbind, attr. apply insert_loop_degenerate; [exact Hs|apply Hc]. }
    rewrite E. exact E.
Qed.

(** C9, amended.  On a filter the constructor returned with a positive size,
    after any calls, [insert] and [find] return without an exception, and
    every index [h % size] is within the storage. *)
Theorem insert_find_total (n d : Z) (P : Py.float) self0 (ops : list op) key :
  init n d P = Ok self0 ->
  0 < size self0 ->
  let self := run ops self0 in
  (exists self', insert key self = (Ok tt, self')) /\
  (exists b : bool, find key self = (Ok b, self)) /\
  (forall h,
      0 <= h mod size self < size self /\
      Z.of_nat (length (bloomFilter self)) = size self).
Proof.
  intros Hi Hs self.
  destruct (run_size ops _ _ _ _ Hi) as [Hc Hg]. fold self in Hc, Hg.
  assert (Hs1 : 0 < size self) by (rewrite (grows_size _ _ Hg); exact Hs).
  split; [eexists; apply insert_in_range; [exact Hs1|apply Hc]|].
  split; [eexists; apply find_in_range; [exact Hs1|apply Hc]|].
  intros h. split; [apply Z.mod_pos_bound, Hs1|].
  rewrite (consistent_length _ Hc). lia.
Qed.

(** C10.  [find], [falsePositiveRate] and [numBitsSet] leave the object as
    it is, so a call after one of them does what it does without it. *)
Theorem reads_do_not_mutate self key :
  snd (find key self) = self /\
  snd (falsePositiveRate self) = self /\
  snd (numBitsSet self) = self /\
  forall r o : op, is_read r = true -> call o (snd (call r self)) = call o self.
Proof.
  split; [apply find_unchanged|].
  split; [rewrite falsePositiveRate_formula; reflexivity|].
  split; [reflexivity|].
  intros r o Hr. rewrite call_read_only; [reflexivity|].
  intros k ->. discriminate.
Qed.

(** C3.  Sizing formula: an outcome of [__bitsNeeded] that is a positive
    integer is the floor of [N = d / (1 - phi^(1/n))] with
    [phi = 1 - P^(1/d)], computed in binary64, and conversely. *)
Theorem bitsNeeded_formula (n d : Z) (P : Py.float) (k : Z) :
  0 < k -> bitsNeeded n d P = Ok k <-> sizing_formula n d P = Ok k.
Proof.
  intros Hk. unfold bitsNeeded, sizing_formula, sizing_phi, sizing_N, bind.
  destruct (Py.int_truediv 1 d); [|tauto].
  destruct (Py.pow _ _ _); [|tauto].
  destruct (Py.rsub 1 _); [|tauto].
  destruct (Py.int_truediv 1 n); [|tauto].
  destruct (Py.pow _ _ _); [|tauto].
  destruct (Py.rsub 1 _); [|tauto].
  destruct (Py.rtruediv d _); [|tauto].
  apply PyFacts.int_floor, Hk.
Qed.

(** C4, amended.  The constructor checks nothing itself; when [numKeys] or
    [numHashes] is zero the sizing arithmetic raises, so [__init__] raises
    before the storage is allocated. *)
Theorem init_division_by_zero (n d : Z) (P : Py.float) :
  n = 0 \/ d = 0 ->
  exists e : exn, bitsNeeded n d P = Raise e /\ init n d P = Raise e.
Proof.
  intros Hz.
  assert (E : exists e, bitsNeeded n d P = Raise e).
  { unfold bitsNeeded.
    destruct (Z.eq_dec d 0) as [->|Hd]; [eexists; reflexivity|].
    destruct Hz as [->|Hz]; [|contradiction].
    unfold bind.
    destruct (Py.int_truediv 1 d); [|eauto].
    destruct (Py.pow _ _ _); [|eauto].
    destruct (Py.rsub 1 _); [|eauto].
    rewrite PyFacts.int_truediv_zero. eauto. }
  destruct E as [e E]. exists e. split; [exact E|].
  unfold init. rewrite E. reflexivity.
Qed.

End Claims.

(** ** Where a claim fails, and the theorems at work on a sample filter *)

(** C4 fails: [maxFalsePositive = 1.0] is outside the open interval and the
    constructor returns a filter of one bit; [maxFalsePositive = inf] gives
    a filter whose storage has length zero.  Neither depends on the
    platform's [pow]. *)
Lemma init_accepts_invalid_parameters :
  valid_parameters 1 1 Py.one = false /\
  (forall C : Collaborators, @init C 1 1 Py.one = Ok (fresh 1 1)) /\
  valid_parameters 1 1 infinity = false /\
  (forall C : Collaborators, @init C 1 1 infinity = Ok (fresh 0 1)) /\
  bloomFilter (fresh 0 1) = [].
Proof. repeat split; intros; reflexivity. Qed.

(** C9 fails: [numHashes = 10 ** 400] with [numKeys = 1] and
    [maxFalsePositive = 0.5] are valid parameters, [1 / numHashes] is [0.0],
    and the division [numHashes / 1.0] raises [OverflowError], whatever the
    platform's [pow]. *)
Lemma bitsNeeded_raises_on_valid_parameters :
  valid_parameters 1 (10 ^ 400) Py.half = true /\
  forall C : Collaborators, @bitsNeeded C 1 (10 ^ 400) Py.half = Raise OverflowError.
Proof. split; [vm_compute; reflexivity|]. intros C. vm_compute. reflexivity. Qed.

(** A target rate of [1e-17] with one key and one hash: [1 - 1e-17] rounds to
    [1.0] and the sizing divides by zero. *)
Example bitsNeeded_tiny_rate :
  valid_parameters 1 1 tiny = true /\
  @bitsNeeded sample 1 1 tiny = Raise ZeroDivisionError.
Proof. split; vm_compute; reflexivity. Qed.

Lemma no_false_negatives_witness :
  let self0 := fresh 2 1 in
  @init sample 1 1 Py.half = Ok self0 /\
  0 < size self0 /\
  let self := @run sample sample_calls self0 in
  exists self1,
    @insert sample 5 self = (Ok tt, self1) /\
    @find sample 5 (@run sample sample_more_calls self1) =
      (Ok true, @run sample sample_more_calls self1).
Proof.
  split; [reflexivity|]. split; [reflexivity|].
  apply (@no_false_negatives sample 1 1 Py.half (fresh 2 1)
           sample_calls sample_more_calls 5); reflexivity.
Defined.

Lemma numBitsSet_counts_ones_witness :
  let self0 := fresh 2 1 in
  @init sample 1 1 Py.half = Ok self0 /\
  let self := @run sample sample_calls self0 in
  @numBitsSet self = (Ok (BitVector.count_ones (bloomFilter self)), self) /\
  forall (key : @Key sample) (i : nat) (h : Z),
    bitsSet (snd (@insert_loop sample key i h self)) =
    BitVector.count_ones (bloomFilter (snd (@insert_loop sample key i h self))).
Proof.
  split; [reflexivity|].
  apply (@numBitsSet_counts_ones sample 1 1 Py.half (fresh 2 1) sample_calls).
  reflexivity.
Defined.

Lemma bitsNeeded_formula_witness :
  0 < 2 /\
  (@bitsNeeded sample 1 1 Py.half = Ok 2 <-> @sizing_formula sample 1 1 Py.half = Ok 2).
Proof.
  split; [reflexivity|].
  apply (@bitsNeeded_formula sample 1 1 Py.half 2). reflexivity.
Defined.

Lemma init_division_by_zero_witness :
  (0 = 0 \/ 4 = 0) /\
  exists e : exn,
    @bitsNeeded sample 0 4 Py.half = Raise e /\ @init sample 0 4 Py.half = Raise e.
Proof.
  split; [left; reflexivity|].
  apply (@init_division_by_zero sample 0 4 Py.half). left. reflexivity.
Defined.

Lemma find_semantics_witness :
  let self0 := fresh 2 1 in
  @init sample 1 1 Py.half = Ok self0 /\
  0 < size self0 /\
  let self := @run sample sample_calls self0 in
  @insert sample 8 self = (Ok tt, foldl set_bit self (@hashes_of sample self 8)) /\
  @find sample 8 self =
    (Ok (forallb (bit self) (@hashes_of sample self 8)), self) /\
  (forall (i : nat) (h : Z),
      bit self h = false ->
      @find_loop sample 8 (S i) h self = (Ok false, self)) /\
  (0 < 1 -> @find sample 8 self0 = (Ok false, self0)).
Proof.
  split; [reflexivity|]. split; [reflexivity|].
  apply (@find_semantics sample 1 1 Py.half (fresh 2 1) sample_calls 8); reflexivity.
Defined.

Lemma falsePositiveRate_projection_witness :
  let self0 := fresh 2 1 in
  @init sample 1 1 Py.half = Ok self0 /\
  0 < size self0 /\
  0 < 1 /\
  (let self := @run sample sample_calls self0 in
   @falsePositiveRate sample self =
     (@projected_rate sample (size self) (bitsSet self) (numHashes self), self)) /\
  @falsePositiveRate sample self0 = (Ok (Py.Float Py.zero), self0).
Proof.
  split; [reflexivity|]. split; [reflexivity|]. split; [reflexivity|].
  apply (@falsePositiveRate_projection sample 1 1 Py.half (fresh 2 1) sample_calls);
    reflexivity.
Defined.

Lemma numBitsSet_monotone_witness :
  let self0 := fresh 2 1 in
  @init sample 1 1 Py.half = Ok self0 /\
  0 < size self0 /\
  let self1 := @run sample sample_calls self0 in
  let self2 := @run sample sample_more_calls self1 in
  exists c1 c2 : Z,
    @numBitsSet self1 = (Ok c1, self1) /\
    @numBitsSet self2 = (Ok c2, self2) /\
    c1 <= c2 /\ c2 <= size self2 /\ size self2 = size self0 /\
    forall j : nat,
      bloomFilter self1 !! j = Some true -> bloomFilter self2 !! j = Some true.
Proof.
  split; [reflexivity|]. split; [reflexivity|].
  apply (@numBitsSet_monotone sample 1 1 Py.half (fresh 2 1)
           sample_calls sample_more_calls); reflexivity.
Defined.

Lemma insert_twice_witness :
  let self0 := fresh 2 1 in
  @init sample 1 1 Py.half = Ok self0 /\
  let self1 := snd (@insert sample 8 (@run sample sample_calls self0)) in
  let self2 := snd (@insert sample 8 self1) in
  self2 = self1 /\ fst (numBitsSet self2) = fst (numBitsSet self1).
Proof.
  split; [reflexivity|].
  apply (@insert_twice sample 1 1 Py.half (fresh 2 1) sample_calls 8). reflexivity.
Defined.

Lemma insert_find_total_witness :
  let self0 := fresh 2 1 in
  @init sample 1 1 Py.half = Ok self0 /\
  0 < size self0 /\
  let self := @run sample sample_calls self0 in
  (exists self', @insert sample 8 self = (Ok tt, self')) /\
  (exists b : bool, @find sample 8 self = (Ok b, self)) /\
  (forall h : Z,
      0 <= h mod size self < size self /\
      Z.of_nat (length (bloomFilter self)) = size self).
Proof.
  split; [reflexivity|]. split; [reflexivity|].
  apply (@insert_find_total sample 1 1 Py.half (fresh 2 1) sample_calls 8); reflexivity.
Defined.

(** ** Further properties of the filter and of the driver *)

Section Consequences.

Context `{Collaborators}.

Variable empty : Key.

Implicit Types (self : BloomFilter) (h : Z) (key : Key).

Lemma run_app (ops1 ops2 : list op) self :
  run (ops1 ++ ops2) self = run ops2 (run ops1 self).
Proof. apply fold_left_app. Qed.

Lemma call_insert_state key self : snd (call (Insert key) self) = snd (insert key self).
Proof. simpl. unfold mbind. destruct (insert key self) as [[[]|e] s]; reflexivity. Qed.

(** Two consistent objects with the same storage and parameters are the same
    object. *)
Lemma consistent_eq self self' :
  consistent self -> consistent self' ->
  bloomFilter self = bloomFilter self' ->
  size self = size self' -> numHashes self = numHashes self' ->
  self = self'.
Proof.
  intros [_ Hc] [_ Hc'] Hv Hs Hd.
  destruct self, self'; simpl in *. subst. reflexivity.
Qed.

(** *** The storage after setting bits *)

Lemma foldl_set_bit_numHashes (hs : list Z) self :
  numHashes (foldl set_bit self hs) = numHashes self.
Proof. apply (grows_numHashes _ _ (foldl_set_bit_grows hs self)). Qed.

Lemma foldl_set_bit_size' (hs : list Z) self :
  size (foldl set_bit self hs) = size self.
Proof. apply (grows_size _ _ (foldl_set_bit_grows hs self)). Qed.

Lemma foldl_set_bit_length (hs : list Z) self :
  length (bloomFilter (foldl set_bit self hs)) = length (bloomFilter self).
Proof.
  revert self. induction hs as [|h hs IH]; intros self; [reflexivity|].
  simpl. rewrite IH. apply set_bit_length.
Qed.

Lemma index_set_bit self h h' : index (set_bit self h) h' = index self h'.
Proof. reflexivity. Qed.

Lemma index_foldl_set_bit (hs : list Z) self h :
  index (foldl set_bit self hs) h = index self h.
Proof. unfold index. rewrite foldl_set_bit_size'. reflexivity. Qed.

(** A bit is one after the loop exactly when it was one before or the loop
    set it. *)
Lemma lookup_foldl_set_bit (hs : list Z) :
  forall self (j : nat),
    (j < length (bloomFilter self))%nat ->
    bloomFilter (foldl set_bit self hs) !! j = Some true <->
    bloomFilter self !! j = Some true \/ In j (map (index self) hs).
Proof.
  induction hs as [|h hs IH]; intros self j Hj; simpl; [tauto|].
  rewrite IH by (rewrite set_bit_length; exact Hj).
  simpl bloomFilter.
  destruct (decide (index self h = j)) as [E|E].
  - subst j. rewrite list_lookup_insert_eq by exact Hj. tauto.
  - rewrite list_lookup_insert_ne by exact E.
    assert (Hm : map (index (set_bit self h)) hs = map (index self) hs) by reflexivity.
    rewrite Hm. tauto.
Qed.

Lemma lookup_foldl_set_bit_other (hs : list Z) :
  forall self (j : nat),
    ~ In j (map (index self) hs) ->
    bloomFilter (foldl set_bit self hs) !! j = bloomFilter self !! j.
Proof.
  induction hs as [|h hs IH]; intros self j Hj; simpl; [reflexivity|].
  simpl in Hj. rewrite IH.
  - simpl. apply list_lookup_insert_ne. tauto.
  - change (map (index (set_bit self h)) hs) with (map (index self) hs). tauto.
Qed.

(** *** Calls as bit settings *)

Lemma hashes_of_foldl (hs : list Z) self key :
  hashes_of (foldl set_bit self hs) key = hashes_of self key.
Proof. unfold hashes_of. rewrite foldl_set_bit_numHashes. reflexivity. Qed.

(** On a filter of positive size a sequence of calls leaves the object the
    inserts alone build, bit by bit. *)
Lemma run_inserted (ops : list op) :
  forall self,
    0 < size self -> consistent self ->
    run ops self =
    foldl set_bit self (concat (map (hashes_of self) (inserted ops))).
Proof.
  induction ops as [|o ops IH]; intros self Hs Hc; [reflexivity|].
  change (run (o :: ops) self) with (run ops (snd (call o self))).
  destruct o as [key|key| |].
  - rewrite call_insert_state, insert_in_range by (exact Hs || apply Hc). simpl snd.
    rewrite IH.
    + simpl inserted. simpl map. simpl concat. rewrite foldl_app.
      f_equal. f_equal. apply map_ext. intros k. apply hashes_of_foldl.
    + rewrite foldl_set_bit_size'. exact Hs.
    + apply foldl_set_bit_consistent; assumption.
  - rewrite call_read_only by discriminate. apply IH; assumption.
  - rewrite call_read_only by discriminate. apply IH; assumption.
  - rewrite call_read_only by discriminate. apply IH; assumption.
Qed.

Lemma run_degenerate (ops : list op) :
  forall self, size self <= 0 -> consistent self -> run ops self = self.
Proof.
  induction ops as [|o ops IH]; intros self Hs Hc; [reflexivity|].
  change (run (o :: ops) self) with (run ops (snd (call o self))).
  assert (E : snd (call o self) = self).
  { destruct o as [key|key| |]; try (apply call_read_only; discriminate).
    rewrite call_insert_state. unfold insert, mbind, attr.
    apply insert_loop_degenerate; [exact Hs|apply Hc]. }
  rewrite E. apply IH; assumption.
Qed.

(** *** Which bits are one *)

Lemma positions_foldl (hs : list Z) self key :
  positions (foldl set_bit self hs) key = positions self key.
Proof.
  unfold positions. rewrite hashes_of_foldl.
  apply map_ext. intros h. apply index_foldl_set_bit.
Qed.

Lemma In_positions_concat self (keys : list Key) (j : nat) :
  In j (map (index self) (concat (map (hashes_of self) keys))) <->
  exists key', In key' keys /\ In j (positions self key').
Proof.
  induction keys as [|k keys IH]; simpl.
  - split; [tauto|intros (k & [] & _)].
  - rewrite map_app, in_app_iff, IH. unfold positions. split.
    + intros [Hj|(k' & Hk & Hj)]; [exists k; tauto|exists k'; tauto].
    + intros (k' & [<-|Hk] & Hj); [tauto|right; exists k'; tauto].
Qed.

(** After calls on a filter as constructed, a bit within the storage is one
    exactly when it is a position of an inserted key. *)
Lemma lookup_run (num d : Z) (ops : list op) (j : nat) :
  0 < num ->
  (j < Z.to_nat num)%nat ->
  bloomFilter (run ops (fresh num d)) !! j = Some true <->
  exists key', In key' (inserted ops) /\ In j (positions (fresh num d) key').
Proof.
  intros Hn Hj.
  rewrite run_inserted by (exact Hn || apply fresh_consistent).
  rewrite lookup_foldl_set_bit by (simpl; rewrite BitVectorFacts.length_new; exact Hj).
  rewrite In_positions_concat. split; [|tauto].
  intros [Hf|Hp]; [|exact Hp].
  apply BitVectorFacts.lookup_new in Hf. discriminate.
Qed.

Lemma run_fresh_shape (num d : Z) (ops : list op) :
  size (run ops (fresh num d)) = num /\
  numHashes (run ops (fresh num d)) = d /\
  consistent (run ops (fresh num d)).
Proof.
  destruct (run_keeps ops (fresh num d) (fresh_consistent num d)) as [Hc Hg].
  split; [apply Hg|]. split; [apply Hg|exact Hc].
Qed.

Lemma positions_run (num d : Z) (ops : list op) key :
  positions (run ops (fresh num d)) key = positions (fresh num d) key.
Proof.
  destruct (run_fresh_shape num d ops) as (Hs & Hd & _).
  unfold positions, hashes_of, index. rewrite Hs, Hd. reflexivity.
Qed.

Lemma position_in_range self key (j : nat) :
  0 < size self ->
  In j (positions self key) -> (j < Z.to_nat (size self))%nat.
Proof.
  intros Hs Hj. unfold positions in Hj. apply in_map_iff in Hj.
  destruct Hj as (h & <- & _). unfold index.
  pose proof (Z.mod_pos_bound h (size self) Hs). lia.
Qed.

Lemma bit_lookup self h :
  bit self h = true <-> bloomFilter self !! index self h = Some true.
Proof.
  unfold bit. destruct (bloomFilter self !! index self h) as [[]|]; split; congruence.
Qed.

Lemma forallb_bit_positions self key :
  forallb (bit self) (hashes_of self key) = true <->
  forall j : nat, In j (positions self key) -> bloomFilter self !! j = Some true.
Proof.
  unfold positions. rewrite forallb_forall. split.
  - intros Hb j Hj. apply in_map_iff in Hj. destruct Hj as (h & <- & Hh).
    apply bit_lookup, Hb, Hh.
  - intros Hb h Hh. apply bit_lookup, Hb, in_map, Hh.
Qed.

(** *** More about the methods *)

(** X1.  What [find] answers: on a filter constructed with a positive size,
    after any calls, [find key] returns, and it returns [True] exactly when
    every position of [key] is a position of some key inserted so far.  So a
    [False] means the key was never inserted, and a [True] for a key never
    inserted means other keys cover all its positions. *)
Theorem find_answers_by_positions (n d : Z) (P : Py.float) self0 (ops : list op) key :
  init n d P = Ok self0 ->
  0 < size self0 ->
  let self := run ops self0 in
  exists b : bool,
    find key self = (Ok b, self) /\
    (b = true <->
     forall j : nat,
       In j (positions self0 key) ->
       exists key', In key' (inserted ops) /\ In j (positions self0 key')).
Proof.
  intros Hi Hs self. subst self.
  pose proof (init_fresh _ _ _ _ Hi) as E.
  remember (size self0) as num eqn:Hn. subst self0. clear Hn Hi.
  destruct (run_fresh_shape num d ops) as (Hs1 & Hd1 & Hc1).
  eexists. split.
  - apply find_in_range; [rewrite Hs1; exact Hs|apply Hc1].
  - rewrite forallb_bit_positions, positions_run. split.
    + intros Hb j Hj. apply (lookup_run num d ops j Hs).
      * apply (position_in_range (fresh num d) key j Hs Hj).
      * apply Hb, Hj.
    + intros Hb j Hj. apply (lookup_run num d ops j Hs).
      * apply (position_in_range (fresh num d) key j Hs Hj).
      * apply Hb, Hj.
Qed.

Lemma find_inserted (num d : Z) (ops : list op) key :
  0 < num ->
  In key (inserted ops) ->
  find key (run ops (fresh num d)) = (Ok true, run ops (fresh num d)).
Proof.
  intros Hs Hk.
  destruct (run_fresh_shape num d ops) as (Hs1 & Hd1 & Hc1).
  assert (Hs2 : 0 < size (run ops (fresh num d))) by (rewrite Hs1; exact Hs).
  rewrite find_in_range by (exact Hs2 || apply Hc1).
  f_equal. f_equal.
  apply forallb_bit_positions. intros j Hj. rewrite positions_run in Hj.
  apply (lookup_run num d ops j Hs).
  - apply (position_in_range (fresh num d) key j Hs Hj).
  - exists key. tauto.
Qed.

(** X2.  A [True] is never taken back: once [find key] returns [True], it
    returns [True] after any further calls, whether or not [key] itself was
    inserted. *)
Theorem find_stays_true (n d : Z) (P : Py.float) self0 (ops more : list op) key :
  init n d P = Ok self0 ->
  0 < size self0 ->
  let self := run ops self0 in
  find key self = (Ok true, self) ->
  find key (run more self) = (Ok true, run more self).
Proof.
  intros Hi Hs self Hf.
  destruct (run_keeps ops self0 (init_consistent _ _ _ _ Hi)) as [Hc Hg].
  fold self in Hc, Hg.
  destruct (run_keeps more self Hc) as [Hc2 Hg2].
  assert (Hs1 : 0 < size self) by (rewrite (grows_size _ _ Hg); exact Hs).
  assert (Hs2 : 0 < size (run more self)) by (rewrite (grows_size _ _ Hg2); exact Hs1).
  rewrite find_in_range in Hf by (exact Hs1 || apply Hc).
  rewrite find_in_range by (exact Hs2 || apply Hc2).
  injection Hf as Hf. rewrite forallb_forall in Hf.
  assert (E : hashes_of (run more self) key = hashes_of self key).
  { unfold hashes_of. rewrite (grows_numHashes _ _ Hg2). reflexivity. }
  rewrite E. f_equal. f_equal. apply forallb_forall. intros h Hh.
  apply (grows_bit _ _ h Hg2), Hf, Hh.
Qed.

(** X3.  The object depends only on which keys were inserted: two sequences
    of calls that insert the same keys, in any order and any number of
    times, with any reads in between, leave the same storage and the same
    count. *)
Theorem run_depends_on_inserted_keys (n d : Z) (P : Py.float) self0 (ops1 ops2 : list op) :
  init n d P = Ok self0 ->
  (forall key, In key (inserted ops1) <-> In key (inserted ops2)) ->
  run ops1 self0 = run ops2 self0.
Proof.
  intros Hi Hk.
  pose proof (init_fresh _ _ _ _ Hi) as E.
  remember (size self0) as num eqn:Hn. subst self0. clear Hn Hi.
  destruct (Z.lt_ge_cases 0 num) as [Hs|Hs].
  - destruct (run_fresh_shape num d ops1) as (Hs1 & Hd1 & Hc1).
    destruct (run_fresh_shape num d ops2) as (Hs2 & Hd2 & Hc2).
    apply consistent_eq; try assumption; try congruence.
    pose proof (consistent_length _ Hc1) as Hl1. rewrite Hs1 in Hl1.
    pose proof (consistent_length _ Hc2) as Hl2. rewrite Hs2 in Hl2.
    apply list_eq. intros j.
    destruct (Nat.lt_ge_cases j (Z.to_nat num)) as [Hj|Hj].
    + pose proof (lookup_run num d ops1 j Hs Hj) as R1.
      pose proof (lookup_run num d ops2 j Hs Hj) as R2.
      assert (R : bloomFilter (run ops1 (fresh num d)) !! j = Some true <->
                  bloomFilter (run ops2 (fresh num d)) !! j = Some true).
      { rewrite R1, R2. split; intros (k & Hin & Hp); exists k; split;
          try exact Hp; apply Hk; exact Hin. }
      destruct (lookup_lt_is_Some_2 (bloomFilter (run ops1 (fresh num d))) j
                  ltac:(rewrite Hl1; exact Hj)) as [b1 E1].
      destruct (lookup_lt_is_Some_2 (bloomFilter (run ops2 (fresh num d))) j
                  ltac:(rewrite Hl2; exact Hj)) as [b2 E2].
      rewrite E1, E2 in *. destruct b1, b2; try reflexivity.
      * symmetry. apply R. reflexivity.
      * apply R. reflexivity.
    + rewrite !lookup_ge_None_2; [reflexivity|rewrite Hl2; exact Hj|rewrite Hl1; exact Hj].
  - rewrite !run_degenerate; try reflexivity; try exact Hs; apply fresh_consistent.
Qed.

Lemma bitsSet_foldl_set_bit (hs : list Z) :
  forall self, bitsSet (foldl set_bit self hs) <= bitsSet self + Z.of_nat (length hs).
Proof.
  induction hs as [|h hs IH]; intros self; simpl foldl; [simpl; lia|].
  specialize (IH (set_bit self h)). simpl length.
  assert (bitsSet (set_bit self h) <= bitsSet self + 1).
  { simpl. destruct (bit self h); lia. }
  lia.
Qed.

Lemma length_hashes key (i : nat) : forall h, length (hashes key i h) = i.
Proof. induction i as [|i IH]; intros h; simpl; [reflexivity|]. rewrite IH. reflexivity. Qed.

Lemma length_concat_hashes self (keys : list Key) :
  Z.of_nat (length (concat (map (hashes_of self) keys))) =
  Z.max 0 (numHashes self) * Z.of_nat (length keys).
Proof.
  induction keys as [|k keys IH]; simpl; [lia|].
  rewrite length_app. unfold hashes_of at 1. rewrite length_hashes. lia.
Qed.

(** X4.  [numBitsSet()] is at most [numHashes] times the number of inserts
    made, and never negative. *)
Theorem numBitsSet_at_most (n d : Z) (P : Py.float) self0 (ops : list op) :
  init n d P = Ok self0 ->
  let self := run ops self0 in
  exists c : Z,
    numBitsSet self = (Ok c, self) /\
    0 <= c <= Z.max 0 d * Z.of_nat (length (inserted ops)).
Proof.
  intros Hi self. exists (bitsSet self). split; [reflexivity|]. subst self.
  pose proof (init_fresh _ _ _ _ Hi) as E.
  remember (size self0) as num eqn:Hn. subst self0. clear Hn Hi.
  destruct (Z.lt_ge_cases 0 num) as [Hs|Hs].
  - rewrite run_inserted by (exact Hs || apply fresh_consistent).
    pose proof (bitsSet_foldl_set_bit
                  (concat (map (hashes_of (fresh num d)) (inserted ops))) (fresh num d)) as Hb.
    rewrite length_concat_hashes in Hb. simpl in Hb.
    pose proof (foldl_set_bit_grows
                  (concat (map (hashes_of (fresh num d)) (inserted ops))) (fresh num d)) as Hg.
    pose proof (grows_bitsSet _ _ Hg) as Hm. simpl in Hm. lia.
  - rewrite run_degenerate by (exact Hs || apply fresh_consistent). simpl. lia.
Qed.

(** X5.  A filter the constructor returned with size zero and at least one
    hash cannot be used: [insert], [find] and [falsePositiveRate] raise
    [ZeroDivisionError], and no sequence of calls changes the object. *)
Theorem zero_size_unusable (n d : Z) (P : Py.float) self0 (ops : list op) key :
  init n d P = Ok self0 ->
  size self0 = 0 ->
  0 < d ->
  run ops self0 = self0 /\
  insert key self0 = (Raise ZeroDivisionError, self0) /\
  find key self0 = (Raise ZeroDivisionError, self0) /\
  falsePositiveRate self0 = (Raise ZeroDivisionError, self0).
Proof.
  intros Hi Hs Hd.
  pose proof (init_consistent _ _ _ _ Hi) as Hc.
  pose proof (init_fresh _ _ _ _ Hi) as E. rewrite Hs in E. subst self0.
  split; [apply run_degenerate; [simpl; lia|exact Hc]|].
  unfold insert, find, falsePositiveRate, mbind, attr. simpl.
  destruct (Z.to_nat d) as [|i] eqn:Ed; [lia|].
  repeat split.
Qed.

Lemma count_ones_full (v : list bool) :
  BitVector.count_ones v = Z.of_nat (length v) ->
  forall j : nat, (j < length v)%nat -> v !! j = Some true.
Proof.
  induction v as [|b v IH]; intros Hc j Hj; [simpl in Hj; lia|].
  rewrite BitVectorFacts.count_ones_cons in Hc. simpl length in Hc.
  pose proof (BitVectorFacts.count_ones_bounds v) as Hb.
  destruct b; [|lia].
  destruct j as [|j]; [reflexivity|].
  simpl. apply IH; [lia|simpl in Hj; lia].
Qed.

Lemma float_pow_one (pow : Py.float -> Py.float -> result Py.float) (w : Py.float) :
  Py.float_pow pow Py.one w = Ok (Py.Float Py.one).
Proof. destruct w as [[]|[]| |[] m e]; reflexivity. Qed.

Lemma int_truediv_zero_num (z : Z) : 0 < z -> Py.int_truediv 0 z = Ok Py.zero.
Proof.
  intros Hz. unfold Py.int_truediv.
  destruct (Z.eqb_spec z 0); [lia|]. destruct z; try lia. reflexivity.
Qed.

(** X6.  Saturation: when [numBitsSet()] has reached the size, [find]
    returns [True] for every key and [falsePositiveRate()] is [1.0]. *)
Theorem full_filter_answers_true (n d : Z) (P : Py.float) self0 (ops : list op) :
  init n d P = Ok self0 ->
  0 < size self0 ->
  let self := run ops self0 in
  numBitsSet self = (Ok (size self), self) ->
  (forall key, find key self = (Ok true, self)) /\
  falsePositiveRate self = (Ok (Py.Float Py.one), self).
Proof.
  intros Hi Hs self Hfull.
  destruct (run_keeps ops self0 (init_consistent _ _ _ _ Hi)) as [Hc Hg].
  fold self in Hc, Hg.
  assert (Hs1 : 0 < size self) by (rewrite (grows_size _ _ Hg); exact Hs).
  assert (Hb : bitsSet self = size self) by (injection Hfull; auto).
  split.
  - intros key. rewrite find_in_range by (exact Hs1 || apply Hc).
    f_equal. f_equal. apply forallb_forall. intros h _.
    apply bit_lookup, count_ones_full.
    + rewrite <- (consistent_count _ Hc), (consistent_length _ Hc). lia.
    + apply index_in_range; [exact Hs1|apply Hc].
  - rewrite falsePositiveRate_formula. f_equal.
    assert (Hw : exists w, Py.float_of_int d = Ok w).
    { revert Hi. unfold init, bind.
      destruct (bitsNeeded n d P) as [num|] eqn:E; [|discriminate].
      intros _. eapply bitsNeeded_converts, E. }
    destruct Hw as [w Hw].
    unfold projected_rate. rewrite Hb, Z.sub_diag, int_truediv_zero_num by exact Hs1.
    cbn [bind]. change (Py.rsub 1 (Py.Float Py.zero)) with (Ok (Py.Float Py.one)).
    cbn [bind]. unfold Py.pow_int.
    rewrite (grows_numHashes _ _ Hg), (init_fresh _ _ _ _ Hi). simpl numHashes.
    rewrite Hw. cbn [bind Py.pow]. apply float_pow_one.
Qed.

(** X7.  [insert] writes nowhere but at the positions of its key: every
    other bit of the storage is what it was. *)
Theorem insert_touches_only_its_positions (n d : Z) (P : Py.float) self0 (ops : list op)
    key (j : nat) :
  init n d P = Ok self0 ->
  let self := run ops self0 in
  ~ In j (positions self key) ->
  bloomFilter (snd (insert key self)) !! j = bloomFilter self !! j.
Proof.
  intros Hi self Hj.
  destruct (run_keeps ops self0 (init_consistent _ _ _ _ Hi)) as [Hc _].
  fold self in Hc.
  destruct (Z.lt_ge_cases 0 (size self)) as [Hs|Hs].
  - rewrite insert_in_range by (exact Hs || apply Hc). simpl snd.
    apply lookup_foldl_set_bit_other. exact Hj.
  - unfold insert, mbind, attr.
    rewrite insert_loop_degenerate by (exact Hs || apply Hc). reflexivity.
Qed.

(** *** The driver *)

Lemma inserted_map_Insert (ws : list Key) : inserted (map Insert ws) = ws.
Proof. induction ws as [|w ws IH]; simpl; [reflexivity|]. rewrite IH. reflexivity. Qed.

Lemma readline_drop (fin : list Key) : snd (readline empty fin) = drop 1 fin.
Proof. destruct fin; reflexivity. Qed.

Lemma insert_words_run (i : nat) :
  forall (fin : list Key) self,
    0 < size self -> consistent self ->
    insert_words empty i fin self =
    (Ok (drop i fin), run (map Insert (words_read empty i fin)) self).
Proof.
  induction i as [|i IH]; intros fin self Hs Hc; [rewrite drop_0; reflexivity|].
  simpl insert_words. simpl words_read.
  destruct (readline empty fin) as [word fin'] eqn:Er.
  assert (Ed : drop (S i) fin = drop i fin').
  { destruct fin; simpl in Er; injection Er as <- <-;
      [rewrite !drop_nil; reflexivity|reflexivity]. }
  rewrite Ed. simpl fst. simpl snd. simpl map.
  change (run (Insert word :: ?l) self) with (run l (snd (call (Insert word) self))).
  rewrite call_insert_state.
  rewrite (mbind_ok _ _ _ _ _ (insert_in_range word self Hs (consistent_length _ Hc))).
  rewrite insert_in_range by (exact Hs || apply Hc). simpl snd.
  apply IH.
  - rewrite foldl_set_bit_size'. exact Hs.
  - apply foldl_set_bit_consistent; assumption.
Qed.

Lemma count_missing_none (i : nat) :
  forall (fin : list Key) (m : Z) self,
    (forall w, In w (words_read empty i fin) -> find w self = (Ok true, self)) ->
    count_missing empty i fin m self = (Ok (m, drop i fin), self).
Proof.
  induction i as [|i IH]; intros fin m self Hf; [rewrite drop_0; reflexivity|].
  simpl count_missing. simpl words_read in Hf.
  destruct (readline empty fin) as [word fin'] eqn:Er.
  assert (Ed : drop (S i) fin = drop i fin').
  { destruct fin; simpl in Er; injection Er as <- <-;
      [rewrite !drop_nil; reflexivity|reflexivity]. }
  rewrite Ed. simpl in Hf.
  rewrite (mbind_ok _ _ _ _ _ (Hf word (or_introl eq_refl))). simpl negb. cbv iota.
  apply IH. intros w Hw. apply Hf. right. exact Hw.
Qed.

Lemma count_found_bounds (i : nat) :
  forall (fin : list Key) (f : Z) self,
    0 < size self -> consistent self ->
    exists f' : Z,
      count_found empty i fin f self = (Ok (f', drop i fin), self) /\
      f <= f' <= f + Z.of_nat i.
Proof.
  induction i as [|i IH]; intros fin f self Hs Hc.
  - exists f. rewrite drop_0. split; [reflexivity|lia].
  - simpl count_found.
    destruct (readline empty fin) as [word fin'] eqn:Er.
    assert (Ed : drop (S i) fin = drop i fin').
    { destruct fin; simpl in Er; injection Er as <- <-;
        [rewrite !drop_nil; reflexivity|reflexivity]. }
    rewrite Ed.
    rewrite (mbind_ok _ _ _ _ _ (find_in_range word self Hs (consistent_length _ Hc))).
    destruct (IH fin' (if forallb (bit self) (hashes_of self word) then f + 1 else f)
                self Hs Hc) as (f' & -> & Hb).
    exists f'. split; [reflexivity|].
    destruct (forallb _ _); lia.
Qed.

(** X8.  The driver: once the filter is constructed with a positive size,
    no [insert] or [find] of [__main] raises, the count of missing words it
    reports is [0], and the count of found words is between [0] and
    [numKeys]; what is left to fail is the arithmetic of the two rates. *)
Theorem main_counts_no_missing (numKeys d : Z) (P : Py.float) (wordlist : list Key) self0 :
  init numKeys d P = Ok self0 ->
  0 < size self0 ->
  let self := run (map Insert (words_read empty (Z.to_nat numKeys) wordlist)) self0 in
  exists found : Z,
    0 <= found <= Z.max 0 numKeys /\
    main_with empty numKeys d P wordlist =
    (let* rate := projected_rate (size self) (bitsSet self) (numHashes self) in
     let* ratio := Py.int_truediv found numKeys in
     Ok (mkReport rate 0 ratio)).
Proof.
  intros Hi Hs self.
  pose proof (init_consistent _ _ _ _ Hi) as Hc0.
  destruct (run_keeps (map Insert (words_read empty (Z.to_nat numKeys) wordlist)) self0 Hc0)
    as [Hc Hg]. fold self in Hc, Hg.
  assert (Hs1 : 0 < size self) by (rewrite (grows_size _ _ Hg); exact Hs).
  destruct (count_found_bounds (Z.to_nat numKeys)
              (drop (Z.to_nat numKeys) wordlist) 0 self Hs1 Hc) as (found & Hfound & Hb).
  exists found. split; [lia|].
  unfold main_with. rewrite Hi. cbn [bind].
  rewrite (mbind_ok _ _ _ _ _ (insert_words_run _ wordlist self0 Hs Hc0)). fold self.
  unfold mbind at 1. rewrite falsePositiveRate_formula.
  destruct (projected_rate (size self) (bitsSet self) (numHashes self)) as [rate|e];
    [|reflexivity].
  cbn [bind].
  assert (Hall : forall w, In w (words_read empty (Z.to_nat numKeys) wordlist) ->
                           find w self = (Ok true, self)).
  { intros w Hw. subst self.
    rewrite (init_fresh _ _ _ _ Hi). apply find_inserted.
    - rewrite (init_fresh _ _ _ _ Hi) in Hs. exact Hs.
    - rewrite inserted_map_Insert. exact Hw. }
  rewrite (mbind_ok _ _ _ _ _ (count_missing_none (Z.to_nat numKeys) wordlist 0 self Hall)).
  cbn [fst snd]. rewrite (mbind_ok _ _ _ _ _ Hfound). cbn [fst snd].
  unfold mbind, lift, ret. destruct (Py.int_truediv found numKeys); reflexivity.
Qed.

End Consequences.

(** ** The further properties on the sample filter *)

Lemma find_answers_by_positions_witness :
  let self0 := fresh 2 1 in
  @init sample 1 1 Py.half = Ok self0 /\
  0 < size self0 /\
  let self := @run sample sample_calls self0 in
  exists b : bool,
    @find sample 9 self = (Ok b, self) /\
    (b = true <->
     forall j : nat,
       In j (@positions sample self0 9) ->
       exists key', In key' (@inserted sample sample_calls) /\
                    In j (@positions sample self0 key')).
Proof.
  split; [reflexivity|]. split; [reflexivity|].
  apply (@find_answers_by_positions sample 1 1 Py.half (fresh 2 1) sample_calls 9);
    reflexivity.
Defined.

Lemma find_stays_true_witness :
  let self0 := fresh 2 1 in
  @init sample 1 1 Py.half = Ok self0 /\
  0 < size self0 /\
  let self := @run sample sample_calls self0 in
  @find sample 9 self = (Ok true, self) /\
  @find sample 9 (@run sample sample_more_calls self) =
    (Ok true, @run sample sample_more_calls self).
Proof.
  split; [reflexivity|]. split; [reflexivity|]. split; [reflexivity|].
  apply (@find_stays_true sample 1 1 Py.half (fresh 2 1) sample_calls sample_more_calls 9);
    reflexivity.
Defined.

Lemma run_depends_on_inserted_keys_witness :
  let self0 := fresh 2 1 in
  let ops1 := [@Insert sample 7; @Insert sample 8; @Insert sample 7] in
  let ops2 := [@Insert sample 8; @Find sample 3; @Insert sample 7] in
  @init sample 1 1 Py.half = Ok self0 /\
  (forall key, In key (@inserted sample ops1) <-> In key (@inserted sample ops2)) /\
  @run sample ops1 self0 = @run sample ops2 self0.
Proof.
  split; [reflexivity|]. split; [intros key; simpl; tauto|].
  apply (@run_depends_on_inserted_keys sample 1 1 Py.half (fresh 2 1));
    [reflexivity|intros key; simpl; tauto].
Defined.

Lemma numBitsSet_at_most_witness :
  let self0 := fresh 2 1 in
  @init sample 1 1 Py.half = Ok self0 /\
  let self := @run sample sample_calls self0 in
  exists c : Z,
    numBitsSet self = (Ok c, self) /\
    0 <= c <= Z.max 0 1 * Z.of_nat (length (@inserted sample sample_calls)).
Proof.
  split; [reflexivity|].
  apply (@numBitsSet_at_most sample 1 1 Py.half (fresh 2 1) sample_calls). reflexivity.
Defined.

Lemma zero_size_unusable_witness :
  let self0 := fresh 0 1 in
  @init sample 1 1 infinity = Ok self0 /\
  size self0 = 0 /\
  0 < 1 /\
  @run sample sample_calls self0 = self0 /\
  @insert sample 7 self0 = (Raise ZeroDivisionError, self0) /\
  @find sample 7 self0 = (Raise ZeroDivisionError, self0) /\
  @falsePositiveRate sample self0 = (Raise ZeroDivisionError, self0).
Proof.
  split; [reflexivity|]. split; [reflexivity|]. split; [reflexivity|].
  apply (@zero_size_unusable sample 1 1 infinity (fresh 0 1) sample_calls 7); reflexivity.
Defined.

Lemma full_filter_answers_true_witness :
  let self0 := fresh 2 1 in
  let ops := [@Insert sample 7; @Insert sample 8] in
  @init sample 1 1 Py.half = Ok self0 /\
  0 < size self0 /\
  let self := @run sample ops self0 in
  numBitsSet self = (Ok (size self), self) /\
  (forall key, @find sample key self = (Ok true, self)) /\
  @falsePositiveRate sample self = (Ok (Py.Float Py.one), self).
Proof.
  split; [reflexivity|]. split; [reflexivity|]. split; [reflexivity|].
  apply (@full_filter_answers_true sample 1 1 Py.half (fresh 2 1)
           [@Insert sample 7; @Insert sample 8]); reflexivity.
Defined.

Lemma insert_touches_only_its_positions_witness :
  let self0 := fresh 2 1 in
  @init sample 1 1 Py.half = Ok self0 /\
  let self := @run sample sample_calls self0 in
  ~ In 0%nat (@positions sample self 8) /\
  bloomFilter (snd (@insert sample 8 self)) !! 0%nat = bloomFilter self !! 0%nat.
Proof.
  split; [reflexivity|].
  assert (Hn : ~ In 0%nat (@positions sample (@run sample sample_calls (fresh 2 1)) 8)).
  { intros [E|[]]. discriminate E. }
  split; [exact Hn|].
  apply (@insert_touches_only_its_positions sample 1 1 Py.half (fresh 2 1) sample_calls 8 0);
    [reflexivity|exact Hn].
Defined.

Lemma main_counts_no_missing_witness :
  let self0 := fresh 2 1 in
  let wordlist := [7; 9; 10] in
  @init sample 1 1 Py.half = Ok self0 /\
  0 < size self0 /\
  let self := @run sample (map (@Insert sample) (@words_read sample 0 (Z.to_nat 1) wordlist))
                self0 in
  exists found : Z,
    0 <= found <= Z.max 0 1 /\
    @main_with sample 0 1 1 Py.half wordlist =
    (let* rate := @projected_rate sample (size self) (bitsSet self) (numHashes self) in
     let* ratio := Py.int_truediv found 1 in
     Ok (mkReport rate 0 ratio)).
Proof.
  split; [reflexivity|]. split; [reflexivity|].
  apply (@main_counts_no_missing sample 0 1 1 Py.half [7; 9; 10] (fresh 2 1)); reflexivity.
Defined.
